(** * Inertia-Local-RAG: a shallow embedding of [rag_system.py]

    The program is a retrieval-augmented-generation service: a class
    [RAGSystem] with a constructor and three operations
    ([ingest_documents], [query_system], [self_learn]) on top of LangChain,
    Chroma and Ollama, plus a Streamlit front end.

    The three methods are translated statement by statement into a
    state-and-exception monad.  The collaborators the program imports
    (file loader, text splitter, embedding and chat providers, the truth
    value of a store object, similarity ranking) are not part of the
    repository; they are operations of a record [Collaborators] over which
    every theorem is universally quantified, and every call to a provider
    is recorded in a ghost [trace]. *)

From Stdlib Require Import ZArith Ascii String DecimalString.
From stdpp Require Import base option list strings gmap.

Local Open Scope string_scope.
Local Open Scope nat_scope.

(** ** Python values, exceptions and outcomes *)

(** The text a Python [str] holds; a line feed is written [nl]. *)
Definition nl : string := String (Ascii.ascii_of_nat 10) EmptyString.

(** [str(n)] for a non-negative integer. *)
Definition str_of_nat (n : nat) : string :=
  NilEmpty.string_of_uint (Nat.to_uint n).

(** An exception object deriving from [Exception]: its class and [str(e)]. *)
Record exn := Exn { exn_class : string; exn_str : string }.

Inductive outcome (A : Type) : Type :=
| Ok (a : A)
| Raise (e : exn).
Arguments Ok {A} a.
Arguments Raise {A} e.

(** [langchain.schema.Document]. *)
Record Document := mkDocument {
  page_content : string;
  metadata : gmap string string
}.

(** The values the three public methods hand back to their caller. *)
#[warnings="-register-all"]
Inductive pyval :=
| PyNone
| PyStr (s : string)
| PyInt (n : Z)
| PyDoc (d : Document)
| PyList (l : list pyval)
| PyTuple (l : list pyval).

(** Python truth value of a [str]. *)
Definition str_truth (s : string) : bool :=
  match s with EmptyString => false | String _ _ => true end.

(** ** The message texts of [ingest_documents] *)

(** [f"Successfully processed {n} chunks using Ollama embeddings."] *)
Definition ingest_success (n : nat) : string :=
  "Successfully processed " +:+ str_of_nat n
  +:+ " chunks using Ollama embeddings.".

(** [f"Error during ingestion: {e}"] *)
Definition ingest_failure (e : exn) : string :=
  "Error during ingestion: " +:+ exn_str e.

(** The value [ingest_documents] returns from its [except] branch. *)
Definition ingestion_error (v : pyval) : Prop :=
  ∃ e, v = PyStr (ingest_failure e).

(** ** Configuration *)

Definition PERSIST_DIRECTORY : string := "./chroma_db_qwen".

(** ** Objects of the imported libraries *)

(** [OllamaEmbeddings(model=...)]. *)
Record OllamaEmbeddings := mkOllamaEmbeddings { embed_model : string }.

(** [ChatOllama(model=..., temperature=..., keep_alive=...)]; the
    temperature is kept as its decimal literal. *)
Record ChatOllama := mkChatOllama {
  chat_model : string;
  temperature : string;
  keep_alive : string
}.

(** A [Chroma] object is a handle on the collection persisted in a
    directory; the records themselves live in the store (see [State]). *)
Record Chroma := mkChroma {
  persist_directory : string;
  embedding_function : OllamaEmbeddings
}.

(** A persisted, retrievable unit of the vector store. *)
Record StoreRecord (Vector : Type) := mkStoreRecord {
  rec_id : nat;
  rec_embedding : Vector;
  rec_text : string;
  rec_metadata : gmap string string
}.
Arguments mkStoreRecord {Vector} _ _ _ _.
Arguments rec_id {Vector} _.
Arguments rec_embedding {Vector} _.
Arguments rec_text {Vector} _.
Arguments rec_metadata {Vector} _.

Definition record_document {Vector} (r : StoreRecord Vector) : Document :=
  mkDocument (rec_text r) (rec_metadata r).

(** [vectordb.as_retriever(search_kwargs={"k": k})]. *)
Record Retriever := mkRetriever { vectorstore : Chroma; search_k : nat }.

(** [RetrievalQA.from_chain_type(llm, chain_type, retriever,
    return_source_documents=True)]. *)
Record RetrievalQA := mkRetrievalQA {
  chain_llm : ChatOllama;
  chain_type : string;
  chain_retriever : Retriever
}.

(** The dictionary [qa_chain.invoke] returns. *)
Record Response := mkResponse {
  result : string;
  source_documents : list Document
}.

(** Calls that leave the process for a provider. *)
Inductive Event :=
| EvEmbed (model : string) (text : string)
| EvGenerate (model : string) (prompt : string).

(** ** Chunking

    Modelled from the spec: the text splitter
    ([RecursiveCharacterTextSplitter]) is not in the repository.  A document
    is cut on a priority list of separators (paragraph breaks, then sentence
    breaks, then whitespace, then a raw character boundary as last resort)
    so that every piece fits, and adjacent chunks are stitched with an
    overlap window of up to [overlap_size] units carried from the tail of
    the previous chunk into the head of the next.  A document that fits
    yields one chunk with no overlap; an empty document yields none. *)
Module ChunkingEngine.

Record Chunk := mkChunk {
  chunk_text : string;
  overlap_with_prev : nat;
  seq_index : nat
}.

Definition LF : ascii := Ascii.ascii_of_nat 10.

Definition is_space (c : ascii) : bool :=
  bool_decide (c = " "%char) || bool_decide (c = LF)
  || bool_decide (c = Ascii.ascii_of_nat 9)
  || bool_decide (c = Ascii.ascii_of_nat 13).

Definition is_stop (c : ascii) : bool :=
  bool_decide (c = "."%char) || bool_decide (c = "!"%char)
  || bool_decide (c = "?"%char).

(** What a prefix may end in, for a cut right after it to be a break. *)
Definition ends_paragraph (pre : list ascii) : bool :=
  match rev pre with
  | b :: a :: _ => bool_decide (a = LF) && bool_decide (b = LF)
  | _ => false
  end.

Definition ends_sentence (pre : list ascii) : bool :=
  match rev pre with
  | b :: a :: _ => is_stop a && is_space b
  | _ => false
  end.

Definition ends_space (pre : list ascii) : bool :=
  match rev pre with
  | b :: _ => is_space b
  | [] => false
  end.

(** The largest [p] in [1..n] such that the first [p] units of [w] end in
    a break of the given kind. *)
Fixpoint last_cut (brk : list ascii → bool) (w : list ascii) (n : nat)
    : option nat :=
  match n with
  | 0 => None
  | S n' => if brk (take n w) then Some n else last_cut brk w n'
  end.

(** Where to cut a window that is too long to be taken whole. *)
Definition cut_point (w : list ascii) : nat :=
  match last_cut ends_paragraph w (length w) with
  | Some p => p
  | None =>
      match last_cut ends_sentence w (length w) with
      | Some p => p
      | None =>
          match last_cut ends_space w (length w) with
          | Some p => p
          | None => length w
          end
      end
  end.

Section Split.
Variables max_size overlap_size : nat.

(** The tail of the previous chunk that is repeated at the head of the
    next one; it always leaves room for new content. *)
Definition overlap_window (prev : list ascii) : list ascii :=
  drop (length prev - Nat.min overlap_size (max_size - 1)) prev.

(** New content a chunk can take after its overlap; a piece is never
    smaller than one unit. *)
Definition room (ov : list ascii) : nat :=
  Nat.max 1 (max_size - length ov).

Definition next_cut (ov rest : list ascii) : nat :=
  if (length rest <=? room ov)%nat then length rest
  else cut_point (take (room ov) rest).

(** Modelled from the spec: the loop of the splitter, which is library
    code that is not in the repository.  [prev] is the text of the chunk
    before, [rest] what is left of the document; each turn emits the
    overlap window followed by new content up to the chosen cut. *)
Fixpoint split_from (fuel : nat) (prev : list ascii) (idx : nat)
    (rest : list ascii) : list Chunk :=
  match fuel with
  | 0 => []
  | S fuel' =>
      match rest with
      | [] => []
      | _ :: _ =>
          let ov := overlap_window prev in
          let p := next_cut ov rest in
          let text := (ov ++ take p rest)%list in
          mkChunk (string_of_list_ascii text) (length ov) idx
          :: split_from fuel' text (S idx) (drop p rest)
      end
  end.

(** Modelled from the spec: [split(text, max_size, overlap_size)], the
    contract of the splitter. *)
Definition split (text : string) : list Chunk :=
  split_from (String.length text) [] 0 (list_ascii_of_string text).

End Split.



(** [("").join(parts)] *)
Definition join (parts : list string) : string := foldr append "" parts.



(** [split_documents]: every chunk keeps the metadata of its document. *)
Definition split_documents (max_size overlap_size : nat)
    (documents : list Document) : list Document :=
  d ← documents;
  (λ c, mkDocument (chunk_text c) (metadata d))
    <$> split max_size overlap_size (page_content d).

End ChunkingEngine.

(** ** The collaborators

    [Env] is whatever state the outside world has (the file system seen by
    the loader, the Ollama server); every collaborator may answer
    differently from one call to the next and may raise. *)
Record Collaborators (Env Vector : Type) := mkCollaborators {
  (** [TextLoader(path, encoding='utf-8').load()] *)
  text_loader_load : string → Env → outcome (list Document) * Env;
  (** [RecursiveCharacterTextSplitter(chunk_size, chunk_overlap)
      .split_documents(documents)] *)
  split_documents : nat → nat → list Document → outcome (list Document);
  (** building a client object for an Ollama model *)
  ollama_client : string → Env → outcome unit * Env;
  (** the embedding provider: text to vector, for a model *)
  ollama_embed : string → string → Env → outcome Vector * Env;
  (** the language-model provider: prompt to text *)
  ollama_generate : ChatOllama → string → Env → outcome string * Env;
  (** [bool(store)] for a [Chroma] object whose collection holds these
      records *)
  Chroma_bool : list (StoreRecord Vector) → bool;
  (** the [k] records nearest to a query vector, best first *)
  similarity_search : Vector → nat → list (StoreRecord Vector)
                      → list (StoreRecord Vector);
  (** prompt assembly of the "stuff" chain *)
  stuff_prompt : list Document → string → string
}.
Arguments text_loader_load {Env Vector} _ _ _.
Arguments split_documents {Env Vector} _ _ _ _.
Arguments ollama_client {Env Vector} _ _ _.
Arguments ollama_embed {Env Vector} _ _ _ _.
Arguments ollama_generate {Env Vector} _ _ _ _.
Arguments Chroma_bool {Env Vector} _ _.
Arguments similarity_search {Env Vector} _ _ _ _.
Arguments stuff_prompt {Env Vector} _ _ _.

(** ** The object and the state it runs in *)

(** The attributes of a [RAGSystem]; [embedding_model = None] stands for
    an attribute that was never assigned, [vectordb = None] and
    [llm = None] for the Python value [None]. *)
Record RAGSystem := mkRAGSystem {
  embedding_model : option OllamaEmbeddings;
  vectordb : option Chroma;
  llm : option ChatOllama
}.

Record State (Env Vector : Type) := mkState {
  (** [st.session_state.rag] *)
  rag : RAGSystem;
  (** the other keys of [st.session_state] *)
  session_state : gmap string pyval;
  (** the collections persisted on disk, by directory *)
  disk : gmap string (list (StoreRecord Vector));
  env : Env;
  (** ghost: provider calls so far, oldest first *)
  trace : list Event;
  (** ghost: messages shown with [st.error], oldest first *)
  st_error : list string
}.
Arguments mkState {Env Vector} _ _ _ _ _ _.
Arguments rag {Env Vector} _.
Arguments session_state {Env Vector} _.
Arguments disk {Env Vector} _.
Arguments env {Env Vector} _.
Arguments trace {Env Vector} _.
Arguments st_error {Env Vector} _.

Section Program.
Context {Env Vector : Type}.
Context (lib : Collaborators Env Vector).

Local Abbreviation St := (State Env Vector).
Local Abbreviation Rec := (StoreRecord Vector).

(** *** The monad: state threaded through, exceptions propagated *)

Definition M (A : Type) : Type := St → outcome A * St.

Definition ret {A} (a : A) : M A := λ s, (Ok a, s).

Definition bind {A B} (m : M A) (k : A → M B) : M B :=
  λ s, match m s with
       | (Ok a, s') => k a s'
       | (Raise e, s') => (Raise e, s')
       end.

Definition raise {A} (e : exn) : M A := λ s, (Raise e, s).

(** [try: body except Exception as e: handler e] *)
Definition try_except {A} (body : M A) (handler : exn → M A) : M A :=
  λ s, match body s with
       | (Ok a, s') => (Ok a, s')
       | (Raise e, s') => handler e s'
       end.

Definition gets {A} (f : St → A) : M A := λ s, (Ok (f s), s).
Definition modify (f : St → St) : M unit := λ s, (Ok tt, f s).

Notation "x <~ m ; k" := (bind m (λ x, k))
  (at level 100, m at next level, right associativity,
   format "'[v' x  <~  m ; '/' k ']'").
Notation "m >> k" := (bind m (λ _, k))
  (at level 100, right associativity).

Definition set_rag (r : RAGSystem) : M unit :=
  modify (λ s, mkState r (session_state s) (disk s) (env s) (trace s)
                       (st_error s)).
Definition set_session (k : string) (v : pyval) : M unit :=
  modify (λ s, mkState (rag s) (<[k := v]> (session_state s)) (disk s)
                       (env s) (trace s) (st_error s)).
Definition set_disk (d : gmap string (list Rec)) : M unit :=
  modify (λ s, mkState (rag s) (session_state s) d (env s) (trace s)
                       (st_error s)).
Definition log_event (ev : Event) : M unit :=
  modify (λ s, mkState (rag s) (session_state s) (disk s) (env s)
                       (trace s ++ [ev])%list (st_error s)).
Definition st_error_show (msg : string) : M unit :=
  modify (λ s, mkState (rag s) (session_state s) (disk s) (env s) (trace s)
                       (st_error s ++ [msg])%list).

(** Running a collaborator on the outside world. *)
Definition call {A} (op : Env → outcome A * Env) : M A :=
  λ s, let '(r, e') := op (env s) in
       (r, mkState (rag s) (session_state s) (disk s) e' (trace s)
                   (st_error s)).

Definition lift_outcome {A} (o : outcome A) : M A :=
  match o with Ok a => ret a | Raise e => raise e end.

Fixpoint mapM {A B} (f : A → M B) (l : list A) : M (list B) :=
  match l with
  | [] => ret []
  | a :: l' => b <~ f a; bs <~ mapM f l'; ret (b :: bs)
  end.

(** *** Providers, with their calls traced *)

Definition embed (e : OllamaEmbeddings) (text : string) : M Vector :=
  log_event (EvEmbed (embed_model e) text) >>
  call (ollama_embed lib (embed_model e) text).

Definition generate (l : ChatOllama) (prompt : string) : M string :=
  log_event (EvGenerate (chat_model l) prompt) >>
  call (ollama_generate lib l prompt).

Definition new_OllamaEmbeddings (model : string) : M OllamaEmbeddings :=
  call (ollama_client lib model) >> ret (mkOllamaEmbeddings model).

Definition new_ChatOllama (model temp alive : string) : M ChatOllama :=
  call (ollama_client lib model) >> ret (mkChatOllama model temp alive).

(** *** The vector store *)

(** [os.path.exists(dir)] for a store directory. *)
Definition path_exists (dir : string) : M bool :=
  gets (λ s, bool_decide (is_Some (disk s !! dir))).

(** The records of the collection a handle points at. *)
Definition collection (h : Chroma) (s : St) : list Rec :=
  default [] (disk s !! persist_directory h).

(** One record per document, with a fresh id, the document's text and
    metadata and its embedding. *)
Definition fresh_records (start : nat) (docs : list Document)
    (vecs : list Vector) : list Rec :=
  imap (λ i dv, mkStoreRecord (start + i) (snd dv) (page_content (fst dv))
                              (metadata (fst dv)))
       (zip docs vecs).

(** Modelled from the spec: [Chroma.add_documents], the write path of the
    vector store, is library code that is not in the repository.  One
    batch call embeds every text first, then gives each a record with a
    fresh id and the document's metadata and upserts them all at once; the
    first upsert to a directory creates the collection there. *)
Definition Chroma_add_documents (h : Chroma) (docs : list Document)
    : M unit :=
  vecs <~ mapM (λ d, embed (embedding_function h) (page_content d)) docs;
  old <~ gets (collection h);
  d <~ gets disk;
  set_disk (<[persist_directory h :=
              (old ++ fresh_records (length old) docs vecs)%list]> d).

(** [Chroma.from_documents(documents, embedding, persist_directory)] *)
Definition Chroma_from_documents (docs : list Document)
    (e : OllamaEmbeddings) (dir : string) : M Chroma :=
  let h := mkChroma dir e in
  Chroma_add_documents h docs >> ret h.

(** Modelled from the spec: [Chroma.similarity_search], the read path of
    the vector store, is library code that is not in the repository.  The
    query is embedded with the store's own embedding function and the [k]
    best records are retrieved, ranked. *)
Definition Chroma_similarity_search (h : Chroma) (query : string) (k : nat)
    : M (list Document) :=
  v <~ embed (embedding_function h) query;
  recs <~ gets (collection h);
  ret (record_document <$> similarity_search lib v k recs).

(** Modelled from the spec: [RetrievalQA.invoke] with the "stuff" chain is
    library code that is not in the repository.  The passages retrieved
    for the query and the query itself are assembled into one prompt, the
    language model is invoked on it, and its text is returned with the
    ranked passages. *)
Definition RetrievalQA_invoke (chain : RetrievalQA) (query : string)
    : M Response :=
  docs <~ Chroma_similarity_search (vectorstore (chain_retriever chain))
                                   query (search_k (chain_retriever chain));
  answer <~ generate (chain_llm chain) (stuff_prompt lib docs query);
  ret (mkResponse answer docs).

(** *** Python truth values of the two attributes tested by the guard *)

(** [bool(self.vectordb)]: [None] is false, a [Chroma] object is as true as
    its class says. *)
Definition vectordb_truth : M bool :=
  db <~ gets (λ s, vectordb (rag s));
  match db with
  | None => ret false
  | Some h => recs <~ gets (collection h); ret (Chroma_bool lib recs)
  end.

(** [bool(self.llm)]: only [None] is false. *)
Definition llm_truth : M bool :=
  l <~ gets (λ s, llm (rag s));
  ret (bool_decide (is_Some l)).

(** *** class RAGSystem *)

Definition no_attribute (obj attr : string) : exn :=
  Exn "AttributeError"
      ("'" +:+ obj +:+ "' object has no attribute '" +:+ attr +:+ "'").

(** Reading [self.embedding_model]. *)
Definition get_embedding_model : M OllamaEmbeddings :=
  r <~ gets rag;
  match embedding_model r with
  | Some e => ret e
  | None => raise (no_attribute "RAGSystem" "embedding_model")
  end.

Definition RAGSystem_init : M unit :=
  set_rag (mkRAGSystem None None None) >>
  try_except
    (e <~ new_OllamaEmbeddings "nomic-embed-text";
     set_rag (mkRAGSystem (Some e) None None) >>
     (ex <~ path_exists PERSIST_DIRECTORY;
      db <~ (if ex : bool then ret (Some (mkChroma PERSIST_DIRECTORY e))
             else ret None);
      set_rag (mkRAGSystem (Some e) db None) >>
      (l <~ new_ChatOllama "qwen2.5-coder:3b" "0.3" "5m";
       set_rag (mkRAGSystem (Some e) db (Some l)))))
    (λ e,
       st_error_show
         ("Failed to connect to Ollama. Ensure Ollama is running and models are pulled. Error: "
          +:+ exn_str e) >>
       (r <~ gets rag;
        set_rag (mkRAGSystem (embedding_model r) None None))).

Definition ingest_documents (file_path : string) : M pyval :=
  try_except
    (documents <~ call (text_loader_load lib file_path);
     chunks <~ lift_outcome (split_documents lib 800 100 documents);
     r <~ gets rag;
     match vectordb r with
     | None =>
         e <~ get_embedding_model;
         h <~ Chroma_from_documents chunks e PERSIST_DIRECTORY;
         set_rag (mkRAGSystem (embedding_model r) (Some h) (llm r))
     | Some h => Chroma_add_documents h chunks
     end >>
     ret (PyStr (ingest_success (length chunks))))
    (λ e, ret (PyStr (ingest_failure e))).

(** Where [ingest_documents] writes: the store at hand, or a new one in
    the configured directory. *)
Definition ingest_target (r : RAGSystem) : option Chroma :=
  match vectordb r with
  | Some h => Some h
  | None => mkChroma PERSIST_DIRECTORY <$> embedding_model r
  end.

Definition not_initialized : pyval :=
  PyTuple [PyStr "System is not properly initialized. Check Ollama status.";
           PyList []].

(** The value [query_system] returns from its [except] branch. *)
Definition query_failure (e : exn) : pyval :=
  PyTuple [PyStr ("Error during query: " +:+ exn_str e); PyList []].

Definition query_system (query : string) : M pyval :=
  tv <~ vectordb_truth;
  tl <~ llm_truth;
  if negb tv || negb tl then ret not_initialized
  else
    try_except
      (r <~ gets rag;
       match vectordb r, llm r with
       | Some h, Some l =>
           let retriever := mkRetriever h 3 in
           let qa_chain := mkRetrievalQA l "stuff" retriever in
           response <~ RetrievalQA_invoke qa_chain query;
           ret (PyTuple [PyStr (result response);
                         PyList (PyDoc <$> source_documents response)])
       | None, _ => raise (no_attribute "NoneType" "as_retriever")
       | _, None => raise (Exn "ValidationError" "llm")
       end)
      (λ e, ret (query_failure e)).

Definition feedback_text (query answer : string) : string :=
  "Question: " +:+ query +:+ nl +:+ "Verified Answer: " +:+ answer.

Definition feedback_metadata : gmap string string :=
  {[ "source" := "user_feedback" ]}.

Definition learned : pyval :=
  PyStr "System updated! I will remember this answer for next time.".

(** The value [self_learn] returns from its [except] branch. *)
Definition learn_failure (e : exn) : pyval :=
  PyStr ("Error during self-learning: " +:+ exn_str e).

Definition self_learn (query answer : string) : M pyval :=
  try_except
    (let new_knowledge := feedback_text query answer in
     let doc := mkDocument new_knowledge feedback_metadata in
     r <~ gets rag;
     match vectordb r with
     | Some h => Chroma_add_documents h [doc]
     | None => raise (no_attribute "NoneType" "add_documents")
     end >>
     ret learned)
    (λ e, ret (learn_failure e)).

(** *** The front end's "Generate Insight" button (lines 175-183) *)

Definition on_generate_insight (user_query : string) : M unit :=
  if str_truth user_query then
    r <~ query_system user_query;
    match r with
    | PyTuple [answer; sources] =>
        set_session "last_query" (PyStr user_query) >>
        set_session "last_answer" answer >>
        set_session "last_sources" sources
    | _ => raise (Exn "ValueError" "not enough values to unpack")
    end
  else ret tt.

End Program.

(** ** Vocabulary of the statements *)

(** Everything but the outside world and the trace is as before. *)
Definition framed {Env Vector} (s s' : State Env Vector) : Prop :=
  rag s' = rag s ∧ session_state s' = session_state s
  ∧ disk s' = disk s ∧ st_error s' = st_error s.

(** The state after a provider call: the outside world has moved on and
    the trace has grown. *)
Definition provider_step {Env Vector} (s : State Env Vector) (e' : Env)
    (evs : list Event) : State Env Vector :=
  mkState (rag s) (session_state s) (disk s) e' (trace s ++ evs)%list
          (st_error s).

(** The embedding provider answers a text the same way whatever the state
    of the outside world. *)
Definition deterministic_embedding {Env Vector}
    (lib : Collaborators Env Vector) : Prop :=
  ∀ model text e1 e2,
    fst (ollama_embed lib model text e1) = fst (ollama_embed lib model text e2).

(** The second component of the pair [query_system] returns. *)
Definition sources_of (v : pyval) : option (list pyval) :=
  match v with
  | PyTuple [_; PyList srcs] => Some srcs
  | _ => None
  end.

(** The value a run has returned ([None] when it raised). *)
Definition value_of {S} (r : outcome pyval * S) : pyval :=
  match fst r with Ok v => v | Raise _ => PyNone end.

(** ** A small world to run the program in

    One text file, a splitter that follows the chunking engine above, an
    embedding provider that is a function of the text, a language model
    that answers as long as its budget of calls lasts, a store object
    that is true when its collection is not empty, and a ranking by
    insertion order. *)
Module Demo.

Definition refused : exn := Exn "ConnectionError" "connection refused".

Definition demo (embeddings_up : bool) : Collaborators nat nat :=
  {| text_loader_load path e :=
       if bool_decide (path = "temp_data.txt")
       then (Ok [mkDocument "Alpha beta. Gamma delta."
                            {[ "source" := path ]}], e)
       else (Raise (Exn "RuntimeError" ("Error loading " +:+ path)), e);
     split_documents max_size overlap_size documents :=
       Ok (ChunkingEngine.split_documents max_size overlap_size documents);
     ollama_client model e := (Ok tt, e);
     ollama_embed model text e :=
       if embeddings_up then (Ok (String.length text), e)
       else (Raise refused, e);
     ollama_generate l prompt e :=
       match e with
       | 0 => (Raise refused, 0)
       | S e' => (Ok ("Answer to: " +:+ prompt), e')
       end;
     Chroma_bool recs := negb (length recs =? 0)%nat;
     similarity_search v k recs := take k recs;
     stuff_prompt docs query :=
       ChunkingEngine.join (page_content <$> docs) +:+ query |}.

(** A process that has not yet built its [RAGSystem], with nothing on
    disk and [budget] language-model calls to go. *)
Definition blank (budget : nat) : State nat nat :=
  mkState (mkRAGSystem None None None) ∅ ∅ budget [] [].

(** The state reached from [s] by running [m]. *)
Definition after {A} (m : State nat nat → outcome A * State nat nat)
    (s : State nat nat) : State nat nat := snd (m s).

(** Constructed, nothing ingested. *)
Definition started (budget : nat) : State nat nat :=
  after (RAGSystem_init (demo true)) (blank budget).


(** Constructed, the text file ingested. *)
Definition ready (budget : nat) : State nat nat :=
  after (ingest_documents (demo true) "temp_data.txt") (started budget).

(** An answer of 900 units. *)
Definition long_answer : string :=
  string_of_list_ascii (replicate 900 "a"%char).

End Demo.

(** ** Sequences of calls

    What a session does to a [RAGSystem] after it was constructed: any
    sequence of ingestions, queries and feedback. *)
Inductive Op :=
| OpIngest (file_path : string)
| OpQuery (query : string)
| OpLearn (query answer : string).

Definition run_op {Env Vector} (lib : Collaborators Env Vector) (o : Op)
    : State Env Vector → outcome pyval * State Env Vector :=
  match o with
  | OpIngest file_path => ingest_documents lib file_path
  | OpQuery query => query_system lib query
  | OpLearn query answer => self_learn lib query answer
  end.

Fixpoint run_ops {Env Vector} (lib : Collaborators Env Vector)
    (ops : list Op) (s : State Env Vector) : State Env Vector :=
  match ops with
  | [] => s
  | o :: ops' => run_ops lib ops' (snd (run_op lib o s))
  end.

(** Calls to the language model, among provider calls. *)
Definition is_generate (ev : Event) : bool :=
  match ev with EvGenerate _ _ => true | EvEmbed _ _ => false end.

(** The text [__init__] shows with [st.error] for an exception. *)
Definition connect_failure (e : exn) : string :=
  "Failed to connect to Ollama. Ensure Ollama is running and models are pulled. Error: "
  +:+ exn_str e.

(** ** A world whose Ollama server may be down

    As [Demo], with client objects that cannot be built for the models
    listed in [down]. *)
Module Outage.

Definition offline (down : list string) : Collaborators nat nat :=
  {| text_loader_load := text_loader_load (Demo.demo true);
     split_documents := split_documents (Demo.demo true);
     ollama_client model e :=
       if bool_decide (model ∈ down) then (Raise Demo.refused, e)
       else (Ok tt, e);
     ollama_embed := ollama_embed (Demo.demo true);
     ollama_generate := ollama_generate (Demo.demo true);
     Chroma_bool := Chroma_bool (Demo.demo true);
     similarity_search := similarity_search (Demo.demo true);
     stuff_prompt := stuff_prompt (Demo.demo true) |}.

(** A new process over the disk another one has left. *)
Definition restart (s : State nat nat) : State nat nat :=
  mkState (mkRAGSystem None None None) ∅ (disk s) (env s) [] [].

(** Constructed while the language model cannot be reached. *)
Definition degraded (budget : nat) : State nat nat :=
  snd (RAGSystem_init (offline ["qwen2.5-coder:3b"]) (Demo.blank budget)).

(** Constructed while the embedding model cannot be reached. *)
Definition no_embeddings (budget : nat) : State nat nat :=
  snd (RAGSystem_init (offline ["nomic-embed-text"]) (Demo.blank budget)).

End Outage.

(** ** The front end ([main], lines 142-209)

    Streamlit runs the script [main] from top to bottom at every
    interaction; the values of its input widgets are the arguments of a
    run, what it renders is collected in [shown]. *)

(** What a run has rendered, in order. *)
Inductive Widget :=
| StStyle                       (** [apply_custom_css()] *)
| StTitle (body : string)
| StHeader (body : string)
| StSubheader (body : string)
| StMarkdown (body : string)
| StInfo (body : string)
| StWrite (v : pyval)
| StSuccess (v : pyval)
| StError (v : pyval)
(** the "source-box" markdown of a retrieved passage: its number and the
    passage text it quotes, before the fixed "..." *)
| StSourceBox (number : nat) (snippet : string).

(** The inputs of one run: the uploaded file if any, the query typed in,
    and which button was clicked. *)
Record Inputs := mkInputs {
  uploaded_file : option string;
  ingest_clicked : bool;
  user_query : string;
  generate_clicked : bool;
  confirm_clicked : bool
}.

(** A session: the application state, whether ['rag'] is a key of
    [st.session_state] (the object itself is [rag]), and the page of the
    current run. *)
Record Page (Env Vector : Type) := mkPage {
  app : State Env Vector;
  rag_in_session : bool;
  shown : list Widget
}.
Arguments mkPage {Env Vector} _ _ _.
Arguments app {Env Vector} _.
Arguments rag_in_session {Env Vector} _.
Arguments shown {Env Vector} _.

(** [needle in hay] for two [str]. *)
Fixpoint str_in (needle hay : string) : bool :=
  String.prefix needle hay
  || match hay with
     | EmptyString => false
     | String _ hay' => str_in needle hay'
     end.

(** [s[:n]] for a [str]. *)
Fixpoint str_take (n : nat) (s : string) : string :=
  match n, s with
  | S n', String c s' => String c (str_take n' s')
  | _, _ => EmptyString
  end.

(** [type(v).__name__] *)
Definition py_type_name (v : pyval) : string :=
  match v with
  | PyNone => "NoneType"
  | PyStr _ => "str"
  | PyInt _ => "int"
  | PyDoc _ => "Document"
  | PyList _ => "list"
  | PyTuple _ => "tuple"
  end.

(** [bool(v)] *)
Definition py_truth (v : pyval) : bool :=
  match v with
  | PyNone => false
  | PyStr s => str_truth s
  | PyInt n => negb (n =? 0)%Z
  | PyDoc _ => true
  | PyList l | PyTuple l => match l with [] => false | _ :: _ => true end
  end.

(** [needle in v] for a [str] needle: substring of a [str], membership in
    a list or tuple; a [Document] iterates over its fields, none of which
    is a [str]; the other classes are not iterable. *)
Definition py_str_in (needle : string) (v : pyval) : outcome bool :=
  match v with
  | PyStr hay => Ok (str_in needle hay)
  | PyList l | PyTuple l =>
      Ok (existsb (λ x, match x with
                        | PyStr t => String.eqb needle t
                        | _ => false
                        end) l)
  | PyDoc _ => Ok false
  | PyNone | PyInt _ =>
      Raise (Exn "TypeError"
               ("argument of type '" +:+ py_type_name v
                +:+ "' is not iterable"))
  end.

Section FrontEnd.
Context {Env Vector : Type}.
Context (lib : Collaborators Env Vector).
(** [open(path, "wb").write(data)] *)
Context (write_file : string → string → Env → outcome unit * Env).
(** [str(v)] for a value that is not a [str] *)
Context (py_str_other : pyval → string).

Local Abbreviation St := (State Env Vector).
Local Abbreviation Pg := (Page Env Vector).

(** The monad of a script run. *)
Definition UI (A : Type) : Type := Pg → outcome A * Pg.

Definition ui_ret {A} (a : A) : UI A := λ p, (Ok a, p).

Definition ui_bind {A B} (m : UI A) (k : A → UI B) : UI B :=
  λ p, match m p with
       | (Ok a, p') => k a p'
       | (Raise e, p') => (Raise e, p')
       end.

Definition ui_raise {A} (e : exn) : UI A := λ p, (Raise e, p).

(** A call into the application. *)
Definition lift {A} (m : St → outcome A * St) : UI A :=
  λ p, let '(r, s') := m (app p) in
       (r, mkPage s' (rag_in_session p) (shown p)).

Definition show (w : Widget) : UI unit :=
  λ p, (Ok tt, mkPage (app p) (rag_in_session p) (shown p ++ [w])%list).

Notation "x <~ m ; k" := (ui_bind m (λ x, k))
  (at level 100, m at next level, right associativity).
Notation "m >> k" := (ui_bind m (λ _, k))
  (at level 100, right associativity).

(** [st.error(v)]: rendered, and logged like the constructor's. *)
Definition ui_error (v : pyval) (text : string) : UI unit :=
  lift (st_error_show text) >> show (StError v).

(** [str(v)] *)
Definition py_str (v : pyval) : string :=
  match v with PyStr s => s | _ => py_str_other v end.

(** [st.session_state[key]] *)
Definition session_get (key : string) : UI pyval :=
  λ p, match session_state (app p) !! key with
       | Some v => (Ok v, p)
       | None => (Raise (Exn "KeyError" key), p)
       end.

(** [key in st.session_state] *)
Definition session_has (key : string) : UI bool :=
  λ p, (Ok (bool_decide (is_Some (session_state (app p) !! key))), p).

(** Lines 149-150: the [RAGSystem] is built when the session has none. *)
Definition ensure_rag : UI unit :=
  λ p, if rag_in_session p then (Ok tt, p)
       else let '(r, s') := RAGSystem_init lib (app p) in
            match r with
            | Ok _ => (Ok tt, mkPage s' true (shown p))
            | Raise e => (Raise e, mkPage s' false (shown p))
            end.

(** Lines 161-167: the "Ingest Wisdom" button. *)
Definition ingest_wisdom : UI unit :=
  msg <~ lift (ingest_documents lib "temp_data.txt");
  match py_str_in "Successfully" msg with
  | Ok true => show (StSuccess msg)
  | Ok false => ui_error msg (py_str msg)
  | Raise e => ui_raise e
  end.

(** Lines 152-167: the sidebar. *)
Definition sidebar (i : Inputs) : UI unit :=
  show (StHeader "Knowledge Hub") >>
  show (StInfo "Upload documents to build your project's brain.") >>
  match uploaded_file i with
  | Some data =>
      lift (call (write_file "temp_data.txt" data)) >>
      if ingest_clicked i then ingest_wisdom else ui_ret tt
  | None => ui_ret tt
  end.

(** Lines 175-183: the "Generate Insight" button. *)
Definition generate_insight (query : string) : UI unit :=
  if str_truth query then
    r <~ lift (query_system lib query);
    match r with
    | PyTuple [answer; sources] =>
        show (StMarkdown "#### Generated Answer:") >>
        show (StWrite answer) >>
        lift (set_session "last_query" (PyStr query)) >>
        lift (set_session "last_answer" answer) >>
        lift (set_session "last_sources" sources)
    | _ => ui_raise (Exn "ValueError" "not enough values to unpack")
    end
  else ui_ret tt.

(** [for i, doc in enumerate(sources)]: one box per passage, quoting
    [doc.page_content[:400]] under the number [i + 1]. *)
Fixpoint source_boxes (i : nat) (sources : list pyval) : UI unit :=
  match sources with
  | [] => ui_ret tt
  | PyDoc d :: rest =>
      show (StSourceBox (i + 1) (str_take 400 (page_content d))) >>
      source_boxes (S i) rest
  | v :: _ => ui_raise (no_attribute (py_type_name v) "page_content")
  end.

(** Lines 187-197: the sources of the last answer, or a hint. *)
Definition anchors_hint : UI unit :=
  show (StInfo "Retrieve an answer to see the source context here.").

Definition contextual_anchors : UI unit :=
  has <~ session_has "last_sources";
  let hint := anchors_hint in
  if has : bool then
    v <~ session_get "last_sources";
    if py_truth v then
      match v with
      | PyList l | PyTuple l => source_boxes 0 l
      | PyStr _ => ui_raise (no_attribute "str" "page_content")
      | PyDoc _ => ui_raise (no_attribute "tuple" "page_content")
      | PyNone | PyInt _ =>
          ui_raise (Exn "TypeError"
                      ("'" +:+ py_type_name v +:+ "' object is not iterable"))
      end
    else hint
  else hint.

(** Lines 199-209: the feedback panel and its "Confirm & Learn" button. *)
Definition feedback_panel (confirm : bool) : UI unit :=
  show (StMarkdown "---") >>
  (has <~ session_has "last_answer";
   if has : bool then
     show (StMarkdown "#### Feedback & Learning") >>
     show (StWrite (PyStr "Is this insight accurate?")) >>
     if confirm then
       q <~ session_get "last_query";
       a <~ session_get "last_answer";
       msg <~ lift (self_learn lib (py_str q) (py_str a));
       show (StSuccess msg)
     else ui_ret tt
   else ui_ret tt).

(** Lines 169-209: the two columns. *)
Definition columns (i : Inputs) : UI unit :=
  show (StSubheader "Intelligence Portal") >>
  (if generate_clicked i then generate_insight (user_query i)
   else ui_ret tt) >>
  show (StSubheader "Contextual Anchors") >>
  contextual_anchors >>
  feedback_panel (confirm_clicked i).

(** [main()]: one run of the script on a fresh page. *)
Definition main (i : Inputs) : UI unit :=
  (λ p, (Ok tt, mkPage (app p) (rag_in_session p) [])) >>
  show StStyle >>
  show (StTitle "Pro-RAG System") >>
  show (StMarkdown "### Next-Gen Retrieval Augmented Generation with Qwen3") >>
  ensure_rag >>
  sidebar i >>
  columns i.

End FrontEnd.


(** What the application may have become after some calls: the models
    of the object are the same, a store that was held is still held, and
    every collection on disk begins with the records it had. *)
Definition evolves {Env Vector} (s s' : State Env Vector) : Prop :=
  llm (rag s') = llm (rag s)
  ∧ embedding_model (rag s') = embedding_model (rag s)
  ∧ (∀ h, vectordb (rag s) = Some h → vectordb (rag s') = Some h)
  ∧ (∀ dir recs, disk s !! dir = Some recs →
       ∃ more, disk s' !! dir = Some (recs ++ more)%list).

(** A step of a script run that leaves the key ['rag'] alone and lets the
    application evolve. *)
Definition keeps {Env Vector A}
    (m : Page Env Vector → outcome A * Page Env Vector) : Prop :=
  ∀ p, rag_in_session p = true →
       rag_in_session (snd (m p)) = true
       ∧ evolves (app p) (app (snd (m p))).



(** The sessions of [main]: runs of the script, one after the other. *)
Fixpoint sessions {Env Vector} (lib : Collaborators Env Vector)
    (write_file : string → string → Env → outcome unit * Env)
    (py_str_other : pyval → string)
    (runs : list Inputs) (p : Page Env Vector) : Page Env Vector :=
  match runs with
  | [] => p
  | i :: runs' =>
      sessions lib write_file py_str_other runs'
               (snd (main lib write_file py_str_other i p))
  end.

(** ** Visits of the page

    Sessions of the front end over the small world: the uploaded file is
    always written, and what is clicked in a run. *)
Module Visit.

Definition write_ok (path data : string) (e : nat) : outcome unit * nat :=
  (Ok tt, e).

Definition repr (v : pyval) : string := "<" +:+ py_type_name v +:+ ">".

(** A session that holds its [RAGSystem], the application in state [s]. *)
Definition open_page (s : State nat nat) : Page nat nat := mkPage s true [].

(** A session that has not run the script yet. *)
Definition new_session (s : State nat nat) : Page nat nat :=
  mkPage s false [].

Definition upload_and_ingest (data : string) : Inputs :=
  mkInputs (Some data) true "" false false.

Definition ask (q : string) : Inputs := mkInputs None false q true false.

Definition confirm : Inputs := mkInputs None false "" false true.

(** After a round of "Generate Insight" on the ingested file. *)
Definition answered : Page nat nat :=
  snd (generate_insight (Demo.demo true) "What is alpha?"
         (open_page (Demo.ready 1))).

End Visit.

(** ** Tactics *)

(** Unfolding the monad's operations without touching the library calls. *)
Ltac unfold_monad :=
  cbv beta iota zeta delta
    [bind gets ret raise try_except modify set_rag lift_outcome
     get_embedding_model Chroma_from_documents vectordb_truth llm_truth].

(** Unfolding a whole method down to the collaborators. *)
Ltac unfold_program :=
  cbv beta iota zeta delta
    [query_system self_learn RAGSystem_init on_generate_insight
     RetrievalQA_invoke Chroma_similarity_search embed generate
     new_OllamaEmbeddings new_ChatOllama path_exists
     log_event call st_error_show set_session
     bind gets ret raise try_except modify set_rag lift_outcome
     get_embedding_model vectordb_truth llm_truth];
  cbn [rag session_state disk env trace st_error
       vectorstore search_k chain_llm chain_type chain_retriever
       result source_documents embedding_function persist_directory
       embed_model chat_model vectordb llm embedding_model negb orb].

(** Unfolding the combinators of a script run. *)
Ltac unfold_ui :=
  cbv beta iota zeta delta
    [ui_bind ui_ret ui_raise lift show ui_error session_get session_has
     anchors_hint];
  cbn [app rag_in_session shown fst snd].

(** * Properties *)

(** ** The chunking engine *)
Module ChunkingFacts.
Import ChunkingEngine.

Lemma length_string_of_list_ascii (l : list ascii) :
  String.length (string_of_list_ascii l) = length l.
Proof. induction l as [|a l IH]; simpl; [done | by rewrite IH]. Qed.





Section SplitFacts.
Variables max_size overlap_size : nat.





Lemma overlap_window_nil : overlap_window max_size overlap_size [] = [].
Proof. unfold overlap_window. by rewrite drop_nil. Qed.



(** An empty document yields no chunk. *)
Lemma split_empty : split max_size overlap_size "" = [].
Proof. reflexivity. Qed.

(** A document that fits yields exactly one chunk, with no overlap. *)
Lemma split_fits (D : string) :
  D ≠ "" → String.length D ≤ max_size →
  split max_size overlap_size D = [mkChunk D 0 0].
Proof.
  intros Hne Hfit. unfold split.
  rewrite <- (string_of_list_ascii_of_string D) at 1 3.
  rewrite length_string_of_list_ascii.
  destruct (list_ascii_of_string D) as [|a rest] eqn:HD.
  { rewrite <- (string_of_list_ascii_of_string D), HD in Hne. done. }
  assert (Hlen : length (a :: rest) ≤ max_size).
  { rewrite <- HD, <- length_string_of_list_ascii.
    by rewrite string_of_list_ascii_of_string. }
  cbn [length split_from]. rewrite overlap_window_nil.
  assert (Hcut : next_cut max_size [] (a :: rest) = length (a :: rest)).
  { unfold next_cut, room. cbn [length].
    destruct (Nat.leb_spec (S (length rest)) (1 `max` (max_size - 0)));
      [done | cbn [length] in Hlen; lia]. }
  rewrite Hcut, firstn_all, drop_all. cbn [length app].
  by destruct (length rest).
Qed.

(** Chunks are numbered in order. *)
Lemma split_from_seq_index fuel : ∀ prev idx rest i c,
  split_from max_size overlap_size fuel prev idx rest !! i = Some c →
  seq_index c = idx + i.
Proof.
  induction fuel as [|fuel IH]; intros prev idx rest i c; [done |].
  destruct rest as [|a rest]; [done |]. cbn [split_from].
  destruct i as [|i]; cbn [lookup list_lookup].
  - intros [= <-]. cbn. lia.
  - intros H. apply IH in H. lia.
Qed.

End SplitFacts.

(** The scenario of a 1,000-unit document cut at 800 with overlap 100:
    two chunks, the second starting with the last 100 units of the
    first. *)
Lemma split_thousand :
  let D := string_of_list_ascii (replicate 1000 "a"%char) in
  (λ c, (String.length (chunk_text c), overlap_with_prev c))
    <$> split 800 100 D
  = [(800, 0); (300, 100)].
Proof. vm_compute. reflexivity. Qed.

End ChunkingFacts.

(** ** The program *)

Section ProgramFacts.
Context {Env Vector : Type}.
Context (lib : Collaborators Env Vector).

Local Abbreviation St := (State Env Vector).
Local Abbreviation Rec := (StoreRecord Vector).

Lemma framed_refl (s : St) : framed s s.
Proof. by repeat split. Qed.

Lemma framed_trans (s1 s2 s3 : St) :
  framed s1 s2 → framed s2 s3 → framed s1 s3.
Proof.
  intros (?&?&?&?) (?&?&?&?). repeat split; congruence.
Qed.

Lemma embed_framed e text s :
  ∃ r s', embed lib e text s = (r, s') ∧ framed s s'
          ∧ ∃ rest, trace s' = (trace s ++ EvEmbed (embed_model e) text :: rest)%list.
Proof.
  unfold embed, bind, log_event, modify, call. simpl.
  destruct (ollama_embed lib (embed_model e) text (env s)) as [[v|x] e'];
    eexists _, _; (split; [reflexivity |]);
    (split; [by repeat split | by exists []]).
Qed.

Lemma mapM_embed_framed e (docs : list Document) : ∀ s,
  ∃ r s', mapM (λ d, embed lib e (page_content d)) docs s = (r, s')
          ∧ framed s s'
          ∧ ∀ vecs, r = Ok vecs → length vecs = length docs.
Proof.
  induction docs as [|d docs IH]; intros s; simpl.
  { eexists _, _. split; [reflexivity |]. split; [apply framed_refl |].
    by intros vecs [= <-]. }
  unfold bind at 1.
  destruct (embed_framed e (page_content d) s) as (r & s1 & -> & F1 & _).
  destruct r as [v|x].
  - unfold bind at 1.
    destruct (IH s1) as (r2 & s2 & -> & F2 & Hlen).
    destruct r2 as [vs|x]; eexists _, _; (split; [reflexivity |]);
      (split; [by eapply framed_trans |]).
    + intros vecs [= <-]. simpl. by rewrite (Hlen vs).
    + by intros vecs [=].
  - eexists _, _. split; [reflexivity |]. split; [done |]. by intros vecs [=].
Qed.

Lemma length_fresh_records start (docs : list Document) (vecs : list Vector) :
  length vecs = length docs →
  length (fresh_records start docs vecs) = length docs.
Proof.
  intros H. unfold fresh_records.
  rewrite length_imap, length_zip_with. lia.
Qed.

(** A batch write either raises before anything is written, or appends
    one record per document to the collection of its handle. *)
Lemma Chroma_add_documents_outcome h docs s :
  ∃ r s', Chroma_add_documents lib h docs s = (r, s')
    ∧ ((∃ x, r = Raise x ∧ framed s s')
       ∨ (∃ vecs, r = Ok tt ∧ length vecs = length docs
            ∧ rag s' = rag s ∧ session_state s' = session_state s
            ∧ st_error s' = st_error s
            ∧ disk s' = <[persist_directory h :=
                           (collection h s
                            ++ fresh_records (length (collection h s))
                                             docs vecs)%list]> (disk s))).
Proof.
  unfold Chroma_add_documents. unfold bind at 1.
  destruct (mapM_embed_framed (embedding_function h) docs s)
    as (r & s1 & -> & F & Hlen).
  destruct r as [vecs|x].
  - eexists _, _. split; [reflexivity |]. right. exists vecs.
    destruct F as (Hr & Hs & Hd & He).
    simpl. unfold collection. rewrite Hd.
    repeat split; auto.
  - eexists _, _. split; [reflexivity |]. left. by exists x.
Qed.

Lemma collection_framed h (s s' : St) :
  framed s s' → collection h s' = collection h s.
Proof. intros (_&_&Hd&_). unfold collection. by rewrite Hd. Qed.

Lemma call_framed {A} (op : Env → outcome A * Env) (s : St) :
  ∃ r s', call op s = (r, s') ∧ framed s s' ∧ trace s' = trace s.
Proof.
  unfold call. destruct (op (env s)) as [r e'].
  eexists _, _. split; [reflexivity |]. by repeat split.
Qed.

(** What a call to [ingest_documents] can do: it always returns; either
    it returns the failure text and the store is as before, or it returns
    the success text for the chunks it was given by the splitter and the
    collection has grown by one record per chunk. *)
Lemma ingest_documents_outcome path s :
  ∃ v s', ingest_documents lib path s = (Ok v, s')
    ∧ ((ingestion_error v ∧ framed s s')
       ∨ (∃ h chunks vecs,
            v = PyStr (ingest_success (length chunks))
            ∧ length vecs = length chunks
            ∧ ingest_target (rag s) = Some h
            ∧ rag s' = mkRAGSystem (embedding_model (rag s)) (Some h)
                                   (llm (rag s))
            ∧ session_state s' = session_state s
            ∧ st_error s' = st_error s
            ∧ disk s' = <[persist_directory h :=
                           (collection h s
                            ++ fresh_records (length (collection h s))
                                             chunks vecs)%list]> (disk s))).
Proof.
  unfold ingest_documents. unfold_monad.
  destruct (call_framed (text_loader_load lib path) s)
    as (r & s1 & -> & F1 & _).
  destruct r as [documents|x]; cycle 1.
  { eexists _, _. split; [reflexivity |]. left. split; [by exists x | done]. }
  destruct (split_documents lib 800 100 documents) as [chunks|x]; cycle 1.
  { eexists _, _. split; [reflexivity |]. left. split; [by exists x | done]. }
  assert (Hrag : rag s1 = rag s) by apply F1.
  destruct (vectordb (rag s1)) as [h|] eqn:Hdb.
  - destruct (Chroma_add_documents_outcome h chunks s1)
      as (r & s2 & -> & [(x & -> & F2)|(vecs & -> & Hlen & R & S & E & D)]).
    + eexists _, _. split; [reflexivity |]. left.
      split; [by exists x | by eapply framed_trans].
    + eexists _, _. split; [reflexivity |]. right. exists h, chunks, vecs.
      rewrite (collection_framed h _ _ F1) in D.
      destruct F1 as (_ & S1 & D1 & E1).
      unfold ingest_target. rewrite <- Hrag, Hdb.
      repeat split; try congruence.
      rewrite R. destruct (rag s1); simpl in *. by rewrite Hdb.
  - destruct (embedding_model (rag s1)) as [e|] eqn:Hemb; cycle 1.
    { eexists _, _. split; [reflexivity |]. left.
      split; [by eexists | done]. }
    destruct (Chroma_add_documents_outcome (mkChroma PERSIST_DIRECTORY e)
                chunks s1)
      as (r & s2 & -> & [(x & -> & F2)|(vecs & -> & Hlen & R & S & E & D)]).
    + eexists _, _. split; [reflexivity |]. left.
      split; [by exists x | by eapply framed_trans].
    + eexists _, _. split; [reflexivity |]. right.
      exists (mkChroma PERSIST_DIRECTORY e), chunks, vecs.
      rewrite (collection_framed _ _ _ F1) in D.
      destruct F1 as (_ & S1 & D1 & E1).
      unfold ingest_target. rewrite <- Hrag, Hdb, Hemb.
      simpl. repeat split; try congruence.
      rewrite D. simpl. by rewrite D1.
Qed.


(** [query_system], run: the guard, then embedding, retrieval and
    generation, each of which may stop the call. *)
Lemma query_system_run q (s : St) :
  query_system lib q s =
  match vectordb (rag s), llm (rag s) with
  | Some h, Some l =>
      if negb (Chroma_bool lib (collection h s)) then (Ok not_initialized, s)
      else
        let m := embed_model (embedding_function h) in
        match ollama_embed lib m q (env s) with
        | (Raise x, e1) =>
            (Ok (query_failure x), provider_step s e1 [EvEmbed m q])
        | (Ok v, e1) =>
            let docs :=
              record_document <$> similarity_search lib v 3 (collection h s) in
            let prompt := stuff_prompt lib docs q in
            let evs := [EvEmbed m q; EvGenerate (chat_model l) prompt] in
            match ollama_generate lib l prompt e1 with
            | (Raise x, e2) => (Ok (query_failure x), provider_step s e2 evs)
            | (Ok a, e2) =>
                (Ok (PyTuple [PyStr a; PyList (PyDoc <$> docs)]),
                 provider_step s e2 evs)
            end
        end
  | _, _ => (Ok not_initialized, s)
  end.
Proof.
  unfold_program. unfold provider_step.
  destruct (vectordb (rag s)) as [h|] eqn:Hdb; [|by destruct (llm (rag s))].
  destruct (Chroma_bool lib (collection h s)) eqn:Hlen; cbn [negb orb];
    [|by destruct (llm (rag s))].
  destruct (llm (rag s)) as [l|] eqn:Hl; cbn [bool_decide negb]; [|done].
  rewrite bool_decide_eq_true_2 by eauto. cbn [negb orb]. cbv beta iota.
  rewrite Hdb, Hl.
  destruct (ollama_embed lib _ q (env s)) as [[v|x] e1]; cbn; [|done].
  unfold collection at 1. cbn [disk]. fold (collection h s).
  destruct (ollama_generate lib l _ e1) as [[a|x] e2]; cbn;
    by rewrite <- app_assoc.
Qed.

(** What a call to [self_learn] can do. *)
Lemma self_learn_outcome q a (s : St) :
  ∃ v s', self_learn lib q a s = (Ok v, s')
    ∧ ((∃ e, v = learn_failure e ∧ framed s s')
       ∨ (∃ h vec,
            vectordb (rag s) = Some h ∧ v = learned
            ∧ rag s' = rag s ∧ session_state s' = session_state s
            ∧ st_error s' = st_error s
            ∧ disk s' = <[persist_directory h :=
                           (collection h s
                            ++ [mkStoreRecord (length (collection h s)) vec
                                  (feedback_text q a) feedback_metadata])%list]>
                          (disk s))).
Proof.
  unfold self_learn. unfold_monad.
  destruct (vectordb (rag s)) as [h|] eqn:Hdb; cycle 1.
  { eexists _, _. split; [reflexivity |]. left.
    eexists. split; [reflexivity | apply framed_refl]. }
  destruct (Chroma_add_documents_outcome h
              [mkDocument (feedback_text q a) feedback_metadata] s)
    as (r & s1 & -> & [(x & -> & F)|(vecs & -> & Hlen & R & S & E & D)]).
  - eexists _, _. split; [reflexivity |]. left.
    eexists. split; [reflexivity | done].
  - destruct vecs as [|vec [|? ?]]; try done.
    eexists _, _. split; [reflexivity |]. right. exists h, vec.
    repeat split; try done.
    rewrite D. unfold fresh_records. cbn. by rewrite Nat.add_0_r.
Qed.

(** A splitter that raises makes the call return the failure text of that
    exception; the store was not reached. *)
Lemma ingest_reports_chunking_failure path (s : St) docs e1 x :
  text_loader_load lib path (env s) = (Ok docs, e1) →
  split_documents lib 800 100 docs = Raise x →
  ingest_documents lib path s
  = (Ok (PyStr (ingest_failure x)),
     mkState (rag s) (session_state s) (disk s) e1 (trace s) (st_error s)).
Proof.
  intros Hload Hsplit. unfold ingest_documents. unfold_monad.
  unfold call. rewrite Hload. cbn. by rewrite Hsplit.
Qed.

(** An embedding provider that raises on the first chunk makes the call
    return the failure text of that exception; nothing was written. *)
Lemma ingest_reports_embedding_failure path (s : St) docs e1 c chunks h x e2 :
  text_loader_load lib path (env s) = (Ok docs, e1) →
  split_documents lib 800 100 docs = Ok (c :: chunks) →
  vectordb (rag s) = Some h →
  ollama_embed lib (embed_model (embedding_function h)) (page_content c) e1
  = (Raise x, e2) →
  ingest_documents lib path s
  = (Ok (PyStr (ingest_failure x)),
     mkState (rag s) (session_state s) (disk s) e2
       (trace s
        ++ [EvEmbed (embed_model (embedding_function h)) (page_content c)])
       (st_error s)).
Proof.
  intros Hload Hsplit Hdb Hembed. unfold ingest_documents. unfold_monad.
  unfold call at 1. rewrite Hload. cbn [fst snd]. rewrite Hsplit.
  cbn [rag]. rewrite Hdb.
  unfold Chroma_add_documents. cbn [mapM]. unfold_program.
  by rewrite Hembed.
Qed.

Lemma ingest_success_not_failure n e : ingest_success n ≠ ingest_failure e.
Proof. unfold ingest_success, ingest_failure. cbn. discriminate. Qed.

(** The constructor, run where the store directory is missing. *)
Lemma RAGSystem_init_no_directory (s0 : St) :
  disk s0 !! PERSIST_DIRECTORY = None →
  ∃ s1, RAGSystem_init lib s0 = (Ok tt, s1)
    ∧ vectordb (rag s1) = None ∧ disk s1 = disk s0
    ∧ (st_error s1 = st_error s0
       ∨ ∃ model e x e', ollama_client lib model e = (Raise x, e')).
Proof.
  intros Hdir. unfold_program.
  destruct (ollama_client lib "nomic-embed-text" (env s0))
    as [[[]|x] e1] eqn:H1; cbn.
  - rewrite Hdir. cbn.
    destruct (ollama_client lib "qwen2.5-coder:3b" e1)
      as [[[]|x] e2] eqn:H2; cbn.
    + eexists. split; [reflexivity |]. cbn. repeat split; try done. by left.
    + eexists. split; [reflexivity |]. cbn.
      repeat split; try done. right. by eexists _, _, _, _.
  - eexists. split; [reflexivity |]. cbn.
    repeat split; try done. right. by eexists _, _, _, _.
Qed.

End ProgramFacts.

(** * The properties of the specification *)

Section Claims.
Context {Env Vector : Type}.
Context (lib : Collaborators Env Vector).

Local Abbreviation St := (State Env Vector).


(** C10.  [self_learn] called while no vector store exists returns its
    error value (the failed attribute access on [None], caught) and
    changes nothing: the store is not created, on disk or in the object. *)
Theorem learn_without_store (q a : string) (s : St) :
  vectordb (rag s) = None →
  self_learn lib q a s
  = (Ok (learn_failure (no_attribute "NoneType" "add_documents")), s).
Proof.
  intros H. unfold self_learn. unfold_monad. by rewrite H.
Qed.

(** C2 (amended).  [self_learn] composes exactly the text
    "Question: {query}\nVerified Answer: {answer}", tags it with
    source = "user_feedback", and hands it to the store's
    [add_documents] as one document: when the call succeeds the
    collection has grown by exactly one record holding the whole text,
    whatever its length; otherwise it returns its error value and the
    store is as before. *)
Theorem learn_writes_one_record (q a : string) (s : St) (h : Chroma) :
  vectordb (rag s) = Some h →
  ∃ v s', self_learn lib q a s = (Ok v, s')
    ∧ ((∃ e, v = learn_failure e ∧ disk s' = disk s)
       ∨ (∃ vec, v = learned
            ∧ disk s' !! persist_directory h
              = Some (collection h s
                      ++ [mkStoreRecord (length (collection h s)) vec
                            ("Question: " +:+ q +:+ nl
                             +:+ "Verified Answer: " +:+ a)
                            {[ "source" := "user_feedback" ]}])%list)).
Proof.
  intros Hdb.
  destruct (self_learn_outcome lib q a s)
    as (v & s' & Hrun & [(e & -> & F)|(h' & vec & Hh & -> & _ & _ & _ & D)]).
  - exists (learn_failure e), s'. split; [done |]. left.
    exists e. split; [done | apply F].
  - exists learned, s'. split; [done |]. right. exists vec.
    split; [done |]. rewrite Hdb in Hh. injection Hh as <-.
    rewrite D. by rewrite lookup_insert_eq.
Qed.

(** C3 (amended).  A successful [ingest_documents] returns the text
    "Successfully processed {n} chunks using Ollama embeddings.", where
    [n] is the number of records the call has added to the collection. *)
Theorem ingest_success_reports_count (path : string) (s s' : St)
    (v : pyval) :
  ingest_documents lib path s = (Ok v, s') →
  ¬ ingestion_error v →
  ∃ h new,
    ingest_target (rag s) = Some h
    ∧ disk s' !! persist_directory h = Some (collection h s ++ new)%list
    ∧ v = PyStr (ingest_success (length new)).
Proof.
  intros Hrun Hok.
  destruct (ingest_documents_outcome lib path s)
    as (v0 & s0 & Hrun0 & Hcase).
  rewrite Hrun in Hrun0. injection Hrun0 as <- <-.
  destruct Hcase as [[Herr _]|(h & chunks & vecs & -> & Hlen & Ht & _ & _ & _ & D)];
    [done |].
  exists h, (fresh_records (length (collection h s)) chunks vecs).
  split; [done |]. split.
  - rewrite D. by rewrite lookup_insert_eq.
  - by rewrite length_fresh_records.
Qed.

(** C5.  [ingest_documents], [query_system] and [self_learn] never let an
    exception out: in every state and for every behaviour of the
    collaborators each of them returns a value, and the value is either
    the method's success value or the failure value it builds from the
    exception it has caught. *)
Theorem operations_never_raise (s : St) :
  (∀ path, ∃ v s', ingest_documents lib path s = (Ok v, s')
     ∧ ((∃ n, v = PyStr (ingest_success n))
        ∨ ∃ e, v = PyStr (ingest_failure e)))
  ∧ (∀ q, ∃ v s', query_system lib q s = (Ok v, s')
       ∧ ((∃ a docs, v = PyTuple [PyStr a; PyList (PyDoc <$> docs)])
          ∨ v = not_initialized
          ∨ ∃ e, v = query_failure e))
  ∧ (∀ q a, ∃ v s', self_learn lib q a s = (Ok v, s')
       ∧ (v = learned ∨ ∃ e, v = learn_failure e)).
Proof.
  split; [|split].
  - intros path.
    destruct (ingest_documents_outcome lib path s)
      as (v & s' & Hrun & [[Herr _]|(h & chunks & vecs & -> & _)]).
    + exists v, s'. split; [done |]. by right.
    + eexists _, s'. split; [done |]. left. by eexists.
  - intros q. rewrite query_system_run.
    destruct (vectordb (rag s)) as [h|]; [|eexists _, _; eauto].
    destruct (llm (rag s)) as [l|]; [|eexists _, _; eauto].
    destruct (Chroma_bool lib (collection h s)); [|eexists _, _; eauto].
    cbv zeta. cbn [negb].
    destruct (ollama_embed lib _ q (env s)) as [[vec|x] e1].
    + destruct (ollama_generate lib l _ e1) as [[a|x] e2];
        eexists _, _; (split; [reflexivity |]); eauto.
    + eexists _, _. split; [reflexivity |]. eauto.
  - intros q a.
    destruct (self_learn_outcome lib q a s)
      as (v & s' & Hrun & [(e & -> & _)|(h & vec & _ & -> & _)]);
      eexists _, s'; (split; [done |]); eauto.
Qed.

(** C6 (amended).  An empty query string is stopped by the front end:
    the handler of the "Generate Insight" button tests the string and,
    when it is empty, does not call [query_system], so nothing is sent to
    any provider and nothing changes. *)
Theorem empty_query_stopped_by_front_end (s : St) :
  on_generate_insight lib "" s = (Ok tt, s).
Proof. reflexivity. Qed.

(** C7.  Before the first ingestion the store need not exist: the
    constructor, run where the configured directory is missing, raises
    nothing, leaves [vectordb] at [None], and shows an error only if an
    Ollama client could not be built.  From such a state the first
    successful [ingest_documents] creates the store: [vectordb] becomes a
    handle on the configured directory, the collection is persisted
    there, and no other directory is touched. *)
Theorem first_ingest_creates_store (path : string) (s0 s s' : St)
    (v : pyval) :
  disk s0 !! PERSIST_DIRECTORY = None →
  vectordb (rag s) = None →
  disk s !! PERSIST_DIRECTORY = None →
  ingest_documents lib path s = (Ok v, s') →
  ¬ ingestion_error v →
  (∃ s1, RAGSystem_init lib s0 = (Ok tt, s1)
     ∧ vectordb (rag s1) = None ∧ disk s1 = disk s0
     ∧ (st_error s1 = st_error s0
        ∨ ∃ model e x e', ollama_client lib model e = (Raise x, e')))
  ∧ (∃ e recs,
       vectordb (rag s') = Some (mkChroma PERSIST_DIRECTORY e)
       ∧ disk s' !! PERSIST_DIRECTORY = Some recs
       ∧ v = PyStr (ingest_success (length recs))
       ∧ ∀ dir, dir ≠ PERSIST_DIRECTORY → disk s' !! dir = disk s !! dir).
Proof.
  intros Hdir0 Hdb Hdir Hrun Hok.
  split; [by apply RAGSystem_init_no_directory |].
  destruct (ingest_documents_outcome lib path s)
    as (v0 & s1 & Hrun0 & Hcase).
  rewrite Hrun in Hrun0. injection Hrun0 as <- <-.
  destruct Hcase
    as [[Herr _]|(h & chunks & vecs & -> & Hlen & Ht & R & _ & _ & D)];
    [done |].
  unfold ingest_target in Ht. rewrite Hdb in Ht.
  destruct (embedding_model (rag s)) as [e|]; [|done].
  injection Ht as <-. cbn in D. unfold collection in D. cbn in D.
  rewrite Hdir in D. cbn in D.
  exists e, (fresh_records 0 chunks vecs). rewrite R, D. cbn.
  repeat split.
  - by rewrite lookup_insert_eq.
  - by rewrite length_fresh_records.
  - intros dir Hne. by rewrite lookup_insert_ne.
Qed.

(** C8.  An [ingest_documents] call that fails (in loading, chunking or
    embedding) reports the failure as the value of that call and leaves
    every collection on disk, and the object, as they were. *)
Theorem failed_ingest_keeps_records (path : string) (s s' : St)
    (v : pyval) :
  ingest_documents lib path s = (Ok v, s') →
  ingestion_error v →
  disk s' = disk s ∧ rag s' = rag s.
Proof.
  intros Hrun [e ->].
  destruct (ingest_documents_outcome lib path s)
    as (v0 & s0 & Hrun0 & Hcase).
  rewrite Hrun in Hrun0. injection Hrun0 as <- <-.
  destruct Hcase as [[_ F]|(h & chunks & vecs & Hv & _)].
  - split; apply F.
  - assert (Heq : ingest_success (length chunks) = ingest_failure e)
      by congruence.
    by apply ingest_success_not_failure in Heq.
Qed.

(** C9 (amended).  With a deterministic embedding provider and the same
    object and store, two calls of [query_system] with the same text
    return the same ranked sources, unless one of them ends in the
    [except] branch (a provider raised), in which case that call returns
    its failure value, whose source list is empty. *)
Theorem repeated_query_same_sources (q : string) (s1 s2 s1' s2' : St)
    (v1 v2 : pyval) :
  deterministic_embedding lib →
  rag s2 = rag s1 →
  disk s2 = disk s1 →
  query_system lib q s1 = (Ok v1, s1') →
  query_system lib q s2 = (Ok v2, s2') →
  sources_of v1 = sources_of v2
  ∨ (∃ e, v1 = query_failure e)
  ∨ (∃ e, v2 = query_failure e).
Proof.
  intros Hdet Hrag Hdisk. rewrite !query_system_run.
  assert (Hc : ∀ h, collection h s2 = collection h s1).
  { intros h. unfold collection. by rewrite Hdisk. }
  rewrite Hrag.
  destruct (vectordb (rag s1)) as [h|]; cycle 1.
  { intros [= <- _] [= <- _]. by left. }
  destruct (llm (rag s1)) as [l|]; cycle 1.
  { intros [= <- _] [= <- _]. by left. }
  rewrite Hc.
  destruct (Chroma_bool lib (collection h s1)); cbn [negb]; cycle 1.
  { intros [= <- _] [= <- _]. by left. }
  cbv zeta.
  pose proof (Hdet (embed_model (embedding_function h)) q (env s1) (env s2))
    as Hsame.
  destruct (ollama_embed lib _ q (env s1)) as [[vec1|x1] e1];
    destruct (ollama_embed lib _ q (env s2)) as [[vec2|x2] e2];
    cbn in Hsame; try discriminate.
  - injection Hsame as <-.
    destruct (ollama_generate lib l _ e1) as [[a1|x1] e1'];
      destruct (ollama_generate lib l _ e2) as [[a2|x2] e2'];
      intros [= <- _] [= <- _]; eauto.
  - intros [= <- _] [= <- _]. eauto.
Qed.

End Claims.

(** ** Chunking (C4) *)
Section ChunkingClaim.
Import ChunkingEngine ChunkingFacts.




End ChunkingClaim.

(** * Beyond the specification: the life of a [RAGSystem] *)

Section Lifecycle.
Context {Env Vector : Type}.
Context (lib : Collaborators Env Vector).

Local Abbreviation St := (State Env Vector).

(** The constructor, run: the two client objects are built in order, the
    store is opened between them when its directory exists, and the first
    exception abandons the rest. *)
Lemma RAGSystem_init_run (s : St) :
  RAGSystem_init lib s =
  let emb := mkOllamaEmbeddings "nomic-embed-text" in
  let chat := mkChatOllama "qwen2.5-coder:3b" "0.3" "5m" in
  let db := if bool_decide (is_Some (disk s !! PERSIST_DIRECTORY))
            then Some (mkChroma PERSIST_DIRECTORY emb) else None in
  match ollama_client lib "nomic-embed-text" (env s) with
  | (Raise x, e1) =>
      (Ok tt, mkState (mkRAGSystem None None None) (session_state s)
                (disk s) e1 (trace s) (st_error s ++ [connect_failure x]))
  | (Ok _, e1) =>
      match ollama_client lib "qwen2.5-coder:3b" e1 with
      | (Raise x, e2) =>
          (Ok tt, mkState (mkRAGSystem (Some emb) None None)
                    (session_state s) (disk s) e2 (trace s)
                    (st_error s ++ [connect_failure x]))
      | (Ok _, e2) =>
          (Ok tt, mkState (mkRAGSystem (Some emb) db (Some chat))
                    (session_state s) (disk s) e2 (trace s) (st_error s))
      end
  end.
Proof.
  unfold_program. cbv zeta.
  destruct (ollama_client lib "nomic-embed-text" (env s))
    as [[[]|x] e1]; cbn; [|done].
  destruct (bool_decide (is_Some (disk s !! PERSIST_DIRECTORY))); cbn;
    by destruct (ollama_client lib "qwen2.5-coder:3b" e1) as [[[]|x] e2].
Qed.

(** What one call does to everything but the outside world. *)
Lemma run_op_effect (o : Op) (s : St) :
  let s' := snd (run_op lib o s) in
  (∃ v, fst (run_op lib o s) = Ok v)
  ∧ llm (rag s') = llm (rag s)
  ∧ embedding_model (rag s') = embedding_model (rag s)
  ∧ session_state s' = session_state s
  ∧ st_error s' = st_error s
  ∧ (∀ h, vectordb (rag s) = Some h → vectordb (rag s') = Some h)
  ∧ (∀ dir recs, disk s !! dir = Some recs →
       ∃ more, disk s' !! dir = Some (recs ++ more)%list)
  ∧ (∀ dir, Some dir ≠ persist_directory <$> ingest_target (rag s) →
       disk s' !! dir = disk s !! dir).
Proof.
  assert (Hkeep : ∀ s' : St, framed s s' →
    llm (rag s') = llm (rag s)
    ∧ embedding_model (rag s') = embedding_model (rag s)
    ∧ session_state s' = session_state s
    ∧ st_error s' = st_error s
    ∧ (∀ h, vectordb (rag s) = Some h → vectordb (rag s') = Some h)
    ∧ (∀ dir recs, disk s !! dir = Some recs →
         ∃ more, disk s' !! dir = Some (recs ++ more)%list)
    ∧ (∀ dir, Some dir ≠ persist_directory <$> ingest_target (rag s) →
         disk s' !! dir = disk s !! dir)).
  { intros s' (R & S & D & E). rewrite R, D. repeat split; try done.
    intros dir recs Hd. exists []. by rewrite app_nil_r. }
  assert (Hgrow : ∀ (s' : St) h new,
    disk s' = <[persist_directory h := (collection h s ++ new)%list]> (disk s) →
    (∀ dir recs, disk s !! dir = Some recs →
       ∃ more, disk s' !! dir = Some (recs ++ more)%list)
    ∧ (∀ dir, dir ≠ persist_directory h → disk s' !! dir = disk s !! dir)).
  { intros s' h new D. rewrite D. split.
    - intros dir recs Hd.
      destruct (decide (dir = persist_directory h)) as [->|Hne].
      + exists new. rewrite lookup_insert_eq. unfold collection.
        by rewrite Hd.
      + exists []. rewrite lookup_insert_ne by done. by rewrite app_nil_r.
    - intros dir Hne. by rewrite lookup_insert_ne. }
  destruct o as [path|q|q a]; cbn [run_op].
  - destruct (ingest_documents_outcome lib path s)
      as (v & s' & -> & [[_ F]|(h & chunks & vecs & _ & _ & Ht & R & S & E & D)]);
      cbn [fst snd]; (split; [by eexists |]); [by apply Hkeep |].
    destruct (Hgrow s' h _ D) as [G1 G2].
    rewrite R. cbn. repeat split; try done.
    + intros h' Hh. unfold ingest_target in Ht. rewrite Hh in Ht. congruence.
    + intros dir Hne. apply G2. rewrite Ht in Hne. cbn in Hne. congruence.
  - rewrite query_system_run.
    assert (Hp : ∀ e evs, framed s (provider_step s e evs))
      by (by intros; repeat split).
    destruct (vectordb (rag s)) as [h|];
      [|split; [by eexists | by apply Hkeep, framed_refl]].
    destruct (llm (rag s)) as [l|];
      [|split; [by eexists | by apply Hkeep, framed_refl]].
    destruct (negb (Chroma_bool lib (collection h s)));
      [split; [by eexists | by apply Hkeep, framed_refl] |].
    cbv zeta.
    destruct (ollama_embed lib _ q (env s)) as [[vec|x] e1].
    + destruct (ollama_generate lib l _ e1) as [[a|x] e2];
        (split; [by eexists | apply Hkeep, Hp]).
    + split; [by eexists | apply Hkeep, Hp].
  - destruct (self_learn_outcome lib q a s)
      as (v & s' & -> & [(e & _ & F)|(h & vec & Hh & _ & R & S & E & D)]);
      cbn [fst snd]; (split; [by eexists |]); [by apply Hkeep |].
    destruct (Hgrow s' h _ D) as [G1 G2].
    rewrite R. repeat split; try done.
    intros dir Hne. apply G2. unfold ingest_target in Hne.
    rewrite Hh in Hne. cbn in Hne. congruence.
Qed.

Lemma run_ops_effect (ops : list Op) : ∀ s : St,
  llm (rag (run_ops lib ops s)) = llm (rag s)
  ∧ embedding_model (rag (run_ops lib ops s)) = embedding_model (rag s)
  ∧ session_state (run_ops lib ops s) = session_state s
  ∧ st_error (run_ops lib ops s) = st_error s
  ∧ (∀ h, vectordb (rag s) = Some h →
       vectordb (rag (run_ops lib ops s)) = Some h
       ∧ ∀ dir, dir ≠ persist_directory h →
           disk (run_ops lib ops s) !! dir = disk s !! dir)
  ∧ (∀ dir recs, disk s !! dir = Some recs →
       ∃ more, disk (run_ops lib ops s) !! dir = Some (recs ++ more)%list).
Proof.
  induction ops as [|o ops IH]; intros s; cbn [run_ops].
  { repeat split; try done. intros dir recs Hd. exists [].
    by rewrite app_nil_r. }
  destruct (run_op_effect o s) as (_ & L & M & S & E & V & G & T).
  destruct (IH (snd (run_op lib o s))) as (L' & M' & S' & E' & V' & G').
  rewrite L', M', S', E'. do 4 (split; [done |]). split.
  - intros h Hh. destruct (V' h (V h Hh)) as [Hv Hd]. split; [done |].
    intros dir Hne. rewrite Hd by done.
    apply T. unfold ingest_target. rewrite Hh. cbn. congruence.
  - intros dir recs Hd. destruct (G dir recs Hd) as (m1 & H1).
    destruct (G' dir _ H1) as (m2 & H2).
    exists (m1 ++ m2)%list. by rewrite H2, app_assoc.
Qed.

(** *** Provider calls *)

Lemma embed_run (e : OllamaEmbeddings) (text : string) (s : St) :
  embed lib e text s
  = let '(r, e') := ollama_embed lib (embed_model e) text (env s) in
    (r, provider_step s e' [EvEmbed (embed_model e) text]).
Proof. reflexivity. Qed.

(** The chunks of a batch go to the embedding provider one by one, in
    order, up to the first that fails. *)
Lemma mapM_embed_trace (e : OllamaEmbeddings) (docs : list Document) :
  ∀ s : St, ∃ k,
    trace (snd (mapM (λ d, embed lib e (page_content d)) docs s))
    = (trace s
       ++ ((λ d, EvEmbed (embed_model e) (page_content d)) <$> take k docs))%list.
Proof.
  induction docs as [|d docs IH]; intros s.
  { exists 0. cbn. by rewrite app_nil_r. }
  cbn [mapM]. unfold bind at 1. rewrite embed_run.
  destruct (ollama_embed lib (embed_model e) (page_content d) (env s))
    as [[v|x] e1].
  - destruct (IH (provider_step s e1
                    [EvEmbed (embed_model e) (page_content d)])) as (k & Hk).
    exists (S k). unfold bind at 1.
    destruct (mapM _ docs _) as [[vs|x] s2]; cbn in Hk |- *;
      rewrite Hk; by rewrite <- app_assoc.
  - by exists 1.
Qed.

Lemma Chroma_add_documents_trace (h : Chroma) (docs : list Document)
    (s : St) :
  ∃ k, trace (snd (Chroma_add_documents lib h docs s))
       = (trace s
          ++ ((λ d, EvEmbed (embed_model (embedding_function h))
                            (page_content d)) <$> take k docs))%list.
Proof.
  destruct (mapM_embed_trace (embedding_function h) docs s) as (k & Hk).
  exists k. unfold Chroma_add_documents. unfold bind at 1.
  by destruct (mapM _ docs s) as [[vs|x] s1].
Qed.

Lemma embeds_are_not_generate (m : string) (docs : list Document) :
  Forall (λ ev, is_generate ev = false)
         ((λ d, EvEmbed m (page_content d)) <$> docs).
Proof. apply Forall_fmap, Forall_true. done. Qed.

Lemma ingest_documents_trace (path : string) (s : St) :
  ∃ evs, trace (snd (ingest_documents lib path s)) = (trace s ++ evs)%list
         ∧ Forall (λ ev, is_generate ev = false) evs.
Proof.
  assert (Hnil : ∀ s1 : St, trace s1 = trace s →
            ∃ evs, trace s1 = (trace s ++ evs)%list
                   ∧ Forall (λ ev, is_generate ev = false) evs).
  { intros s1 ->. exists []. by rewrite app_nil_r. }
  unfold ingest_documents. unfold_monad.
  destruct (call_framed (text_loader_load lib path) s)
    as (r & s1 & -> & _ & T1).
  destruct r as [documents|x]; [|by apply Hnil].
  destruct (split_documents lib 800 100 documents) as [chunks|x];
    [|by apply Hnil].
  destruct (vectordb (rag s1)) as [h|].
  - destruct (Chroma_add_documents_trace h chunks s1) as (k & Hk).
    destruct (Chroma_add_documents lib h chunks s1) as [[[]|x] s2];
      cbn in Hk |- *; rewrite Hk, T1; eexists; (split; [done |]);
      apply embeds_are_not_generate.
  - destruct (embedding_model (rag s1)) as [e|]; [|by apply Hnil].
    destruct (Chroma_add_documents_trace (mkChroma PERSIST_DIRECTORY e)
                chunks s1) as (k & Hk).
    destruct (Chroma_add_documents lib _ chunks s1) as [[[]|x] s2];
      cbn in Hk |- *; rewrite Hk, T1; eexists; (split; [done |]);
      apply embeds_are_not_generate.
Qed.

Lemma self_learn_trace (q a : string) (s : St) :
  ∃ evs, trace (snd (self_learn lib q a s)) = (trace s ++ evs)%list
         ∧ Forall (λ ev, is_generate ev = false) evs.
Proof.
  unfold self_learn. unfold_monad.
  destruct (vectordb (rag s)) as [h|]; cycle 1.
  { exists []. by rewrite app_nil_r. }
  destruct (Chroma_add_documents_trace h
              [mkDocument (feedback_text q a) feedback_metadata] s)
    as (k & Hk).
  destruct (Chroma_add_documents lib h _ s) as [[[]|x] s2];
    cbn in Hk |- *; rewrite Hk; eexists; (split; [done |]);
    apply embeds_are_not_generate.
Qed.

(** X1.  Constructing a [RAGSystem] never raises, never changes what is
    on disk and never calls the embedding or language-model provider. *)
Theorem init_total_and_silent (s : St) :
  ∃ s', RAGSystem_init lib s = (Ok tt, s')
        ∧ disk s' = disk s ∧ trace s' = trace s
        ∧ session_state s' = session_state s.
Proof.
  rewrite RAGSystem_init_run. cbv zeta.
  destruct (ollama_client lib "nomic-embed-text" (env s)) as [[[]|x] e1];
    [|by eexists].
  by destruct (ollama_client lib "qwen2.5-coder:3b" e1) as [[[]|x] e2];
    eexists.
Qed.

(** X2.  When the store directory exists and both Ollama clients can be
    built, the constructor reopens the persisted store: [vectordb] is a
    handle on the configured directory with the embedding model
    "nomic-embed-text", its collection is what was on disk, the language
    model is configured, and nothing is shown with [st.error]. *)
Theorem init_reopens_store (s : St) (recs : list (StoreRecord Vector))
    (e1 e2 : Env) :
  disk s !! PERSIST_DIRECTORY = Some recs →
  ollama_client lib "nomic-embed-text" (env s) = (Ok tt, e1) →
  ollama_client lib "qwen2.5-coder:3b" e1 = (Ok tt, e2) →
  let s' := snd (RAGSystem_init lib s) in
  let h := mkChroma PERSIST_DIRECTORY (mkOllamaEmbeddings "nomic-embed-text") in
  vectordb (rag s') = Some h
  ∧ collection h s' = recs
  ∧ llm (rag s') = Some (mkChatOllama "qwen2.5-coder:3b" "0.3" "5m")
  ∧ st_error s' = st_error s.
Proof.
  intros Hd H1 H2. rewrite RAGSystem_init_run. cbv zeta.
  rewrite H1, H2, Hd. cbn. unfold collection. cbn. by rewrite Hd.
Qed.

(** X3.  When an Ollama client cannot be built, the constructor shows
    exactly one [st.error], with the text of the exception, and leaves
    both [vectordb] and [llm] at [None], also when a store exists on
    disk. *)
Theorem init_failure_degrades (s : St) (x : exn) (e1 e2 : Env) :
  (ollama_client lib "nomic-embed-text" (env s) = (Raise x, e1)
   ∨ (ollama_client lib "nomic-embed-text" (env s) = (Ok tt, e1)
      ∧ ollama_client lib "qwen2.5-coder:3b" e1 = (Raise x, e2))) →
  let s' := snd (RAGSystem_init lib s) in
  vectordb (rag s') = None
  ∧ llm (rag s') = None
  ∧ st_error s' = (st_error s ++ [connect_failure x])%list.
Proof.
  intros H. rewrite RAGSystem_init_run. cbv zeta.
  destruct H as [-> | [-> ->]]; by cbn.
Qed.

(** X4.  No sequence of ingestions, queries and feedback changes the
    language model or the embedding model of the object, the session
    state, or what was shown with [st.error]. *)
Theorem calls_keep_models_and_session (ops : list Op) (s : St) :
  llm (rag (run_ops lib ops s)) = llm (rag s)
  ∧ embedding_model (rag (run_ops lib ops s)) = embedding_model (rag s)
  ∧ session_state (run_ops lib ops s) = session_state s
  ∧ st_error (run_ops lib ops s) = st_error s.
Proof.
  destruct (run_ops_effect ops s) as (L & M & S & E & _). by repeat split.
Qed.

(** X5.  A system without a language model never recovers: whatever is
    ingested, asked or learned afterwards, every query is answered with
    the not-initialised failure and no provider call. *)
Theorem no_llm_never_answers (ops : list Op) (q : string) (s : St) :
  llm (rag s) = None →
  query_system lib q (run_ops lib ops s)
  = (Ok not_initialized, run_ops lib ops s).
Proof.
  intros Hl. rewrite query_system_run.
  destruct (run_ops_effect ops s) as (-> & _). rewrite Hl.
  by destruct (vectordb (rag (run_ops lib ops s))).
Qed.

(** X6.  A query only reads: it always returns, and the object, the
    session state, every collection on disk and the [st.error] log are
    as before. *)
Theorem query_reads_only (q : string) (s : St) :
  ∃ v s', query_system lib q s = (Ok v, s') ∧ framed s s'.
Proof.
  rewrite query_system_run.
  destruct (vectordb (rag s)) as [h|];
    [|by eexists _, _; split; [|apply framed_refl]].
  destruct (llm (rag s)) as [l|];
    [|by eexists _, _; split; [|apply framed_refl]].
  destruct (negb (Chroma_bool lib (collection h s)));
    [by eexists _, _; split; [|apply framed_refl] |].
  cbv zeta.
  destruct (ollama_embed lib _ q (env s)) as [[vec|x] e1].
  - by destruct (ollama_generate lib l _ e1) as [[a|x] e2];
      eexists _, _; split.
  - by eexists _, _; split.
Qed.

(** X7.  Once the object holds a store, it holds the same store for
    good: after any sequence of calls [vectordb] is the same handle and
    no directory other than the store's has changed. *)
Theorem store_handle_stable (ops : list Op) (s : St) (h : Chroma) :
  vectordb (rag s) = Some h →
  vectordb (rag (run_ops lib ops s)) = Some h
  ∧ ∀ dir, dir ≠ persist_directory h →
      disk (run_ops lib ops s) !! dir = disk s !! dir.
Proof.
  intros Hh. destruct (run_ops_effect ops s) as (_ & _ & _ & _ & V & _).
  by apply V.
Qed.

(** X8.  The store only grows: after any sequence of calls every
    collection that was on disk is still there and begins with the
    records it had, unchanged and in the same order. *)
Theorem store_append_only (ops : list Op) (s : St) (dir : string)
    (recs : list (StoreRecord Vector)) :
  disk s !! dir = Some recs →
  ∃ more, disk (run_ops lib ops s) !! dir = Some (recs ++ more)%list.
Proof.
  destruct (run_ops_effect ops s) as (_ & _ & _ & _ & _ & G). apply G.
Qed.

(** X9.  Ingestion and feedback never call the language model: the
    provider calls they add to the trace are all embedding calls. *)
Theorem ingest_and_learn_never_generate (s : St) :
  (∀ path, ∃ evs,
     trace (snd (ingest_documents lib path s)) = (trace s ++ evs)%list
     ∧ Forall (λ ev, is_generate ev = false) evs)
  ∧ (∀ q a, ∃ evs,
       trace (snd (self_learn lib q a s)) = (trace s ++ evs)%list
       ∧ Forall (λ ev, is_generate ev = false) evs).
Proof.
  split; [intros path; apply ingest_documents_trace
         | intros q a; apply self_learn_trace].
Qed.

(** X10.  A query sends the query text to the embedding provider at most
    once, under the embedding model of the store, and calls the language
    model at most once, only after the embedding has succeeded; when the
    embedding call is the last thing it did, it returns its failure
    value. *)
Theorem query_provider_calls (q : string) (s : St) :
  ∃ evs, trace (snd (query_system lib q s)) = (trace s ++ evs)%list
    ∧ (evs = []
       ∨ ∃ h l, vectordb (rag s) = Some h ∧ llm (rag s) = Some l
           ∧ ((evs = [EvEmbed (embed_model (embedding_function h)) q]
               ∧ ∃ x, fst (query_system lib q s) = Ok (query_failure x))
              ∨ ∃ prompt,
                  evs = [EvEmbed (embed_model (embedding_function h)) q;
                         EvGenerate (chat_model l) prompt])).
Proof.
  rewrite query_system_run.
  destruct (vectordb (rag s)) as [h|];
    [|exists []; split; [by rewrite app_nil_r | by left]].
  destruct (llm (rag s)) as [l|];
    [|exists []; split; [by rewrite app_nil_r | by left]].
  destruct (negb (Chroma_bool lib (collection h s)));
    [exists []; split; [by rewrite app_nil_r | by left] |].
  cbv zeta.
  destruct (ollama_embed lib _ q (env s)) as [[vec|x] e1].
  - destruct (ollama_generate lib l _ e1) as [[a|x] e2];
      (eexists; split; [reflexivity |]); right; exists h, l;
      (do 2 (split; [done |])); right; by eexists.
  - eexists. split; [reflexivity |]. right. exists h, l.
    do 2 (split; [done |]). left. split; [done | by eexists].
Qed.

(** X11.  A file that cannot be loaded, or documents that cannot be
    split, are reported with the text of the exception without any
    provider call or any change to the store or the object. *)
Theorem ingest_fails_before_any_provider (path : string) (s : St)
    (docs : list Document) (x : exn) (e1 : Env) :
  (text_loader_load lib path (env s) = (Raise x, e1)
   ∨ (text_loader_load lib path (env s) = (Ok docs, e1)
      ∧ split_documents lib 800 100 docs = Raise x)) →
  ingest_documents lib path s
  = (Ok (PyStr (ingest_failure x)),
     mkState (rag s) (session_state s) (disk s) e1 (trace s) (st_error s)).
Proof.
  intros [Hload | [Hload Hsplit]].
  - unfold ingest_documents. unfold_monad. unfold call. by rewrite Hload.
  - by apply ingest_reports_chunking_failure with (docs := docs).
Qed.

(** X12.  An object that has neither a store nor an embedding model (its
    construction failed on the embedding client) cannot ingest: every
    call returns the failure text, without any provider call or any
    change to the store or the object; when the file loads and splits,
    the text is that of the missing attribute. *)
Theorem ingest_without_embedding_model (path : string) (s : St) :
  vectordb (rag s) = None →
  embedding_model (rag s) = None →
  ∃ v s', ingest_documents lib path s = (Ok v, s')
    ∧ ingestion_error v ∧ framed s s' ∧ trace s' = trace s
    ∧ (∀ docs e1 chunks,
         text_loader_load lib path (env s) = (Ok docs, e1) →
         split_documents lib 800 100 docs = Ok chunks →
         v = PyStr (ingest_failure
                      (no_attribute "RAGSystem" "embedding_model"))).
Proof.
  intros Hdb Hem. unfold ingest_documents. unfold_monad.
  destruct (call_framed (text_loader_load lib path) s)
    as (r & s1 & Hcall & F1 & T1).
  rewrite Hcall.
  assert (Henv : text_loader_load lib path (env s) = (r, env s1)).
  { unfold call in Hcall.
    destruct (text_loader_load lib path (env s)) as [r0 e0].
    by injection Hcall as <- <-. }
  destruct r as [documents|x].
  - destruct (split_documents lib 800 100 documents) as [chunks|x] eqn:Hs.
    + destruct F1 as (R & S & D & E).
      assert (Hdb1 : vectordb (rag s1) = None) by (by rewrite R).
      assert (Hem1 : embedding_model (rag s1) = None) by (by rewrite R).
      rewrite Hdb1. cbv beta iota. rewrite Hem1. cbv beta iota.
      eexists _, _. split; [reflexivity |].
      split; [by eexists |]. split; [by repeat split |]. split; [done |].
      done.
    + eexists _, _. split; [reflexivity |].
      split; [by eexists |]. split; [done |]. split; [done |].
      intros docs e1 chunks Hl. rewrite Henv in Hl.
      injection Hl as <- _. by rewrite Hs.
  - eexists _, _. split; [reflexivity |].
    split; [by eexists |]. split; [done |]. split; [done |].
    intros docs e1 chunks Hl. rewrite Henv in Hl. discriminate Hl.
Qed.

(** X13.  Feedback is not deduplicated: two successful calls of
    [self_learn] with the same pair add two records with the same text
    and the same metadata, under two different ids. *)
Theorem learn_twice_two_records (q a : string) (s s1 s2 : St)
    (h : Chroma) :
  vectordb (rag s) = Some h →
  self_learn lib q a s = (Ok learned, s1) →
  self_learn lib q a s1 = (Ok learned, s2) →
  ∃ v1 v2,
    collection h s2
    = (collection h s
       ++ [mkStoreRecord (length (collection h s)) v1
             (feedback_text q a) feedback_metadata;
           mkStoreRecord (S (length (collection h s))) v2
             (feedback_text q a) feedback_metadata])%list.
Proof.
  intros Hh H1 H2.
  destruct (self_learn_outcome lib q a s)
    as (v & s' & Hrun & [(e & -> & _)|(h1 & v1 & Hh1 & _ & R1 & _ & _ & D1)]);
    rewrite H1 in Hrun; [by injection Hrun |]. injection Hrun as _ <-.
  rewrite Hh in Hh1. injection Hh1 as <-.
  assert (Hc1 : collection h s1
                = (collection h s
                   ++ [mkStoreRecord (length (collection h s)) v1
                         (feedback_text q a) feedback_metadata])%list).
  { unfold collection at 1. rewrite D1. by rewrite lookup_insert_eq. }
  destruct (self_learn_outcome lib q a s1)
    as (w & s' & Hrun & [(e & -> & _)|(h2 & v2 & Hh2 & _ & R2 & _ & _ & D2)]);
    rewrite H2 in Hrun; [by injection Hrun |]. injection Hrun as _ <-.
  rewrite R1, Hh in Hh2. injection Hh2 as <-.
  exists v1, v2. unfold collection at 1. rewrite D2, lookup_insert_eq.
  rewrite Hc1. cbn. rewrite length_app, <- app_assoc. cbn.
  by rewrite Nat.add_1_r.
Qed.

End Lifecycle.

(** * Beyond the specification: the front end *)

Section FrontEndFacts.
Context {Env Vector : Type}.
Context (lib : Collaborators Env Vector).
Context (write_file : string → string → Env → outcome unit * Env).
Context (py_str_other : pyval → string).

Local Abbreviation St := (State Env Vector).
Local Abbreviation Pg := (Page Env Vector).

(** *** Strings *)

Lemma prefix_nil (s : string) : String.prefix "" s = true.
Proof. by destruct s. Qed.

Lemma str_in_of_prefix (needle hay : string) :
  String.prefix needle hay = true → str_in needle hay = true.
Proof. intros H. destruct hay; cbn [str_in]; by rewrite H. Qed.

Lemma prefix_append (needle rest : string) :
  String.prefix needle (needle +:+ rest) = true.
Proof.
  induction needle as [|a needle IH]; [apply prefix_nil |].
  change (String a needle +:+ rest) with (String a (needle +:+ rest)).
  cbn [String.prefix]. by destruct (ascii_dec a a).
Qed.

Lemma str_in_ingest_success (n : nat) :
  str_in "Successfully" (ingest_success n) = true.
Proof.
  apply str_in_of_prefix.
  change (ingest_success n)
    with ("Successfully"
          +:+ (" processed " +:+ str_of_nat n
               +:+ " chunks using Ollama embeddings.")).
  apply prefix_append.
Qed.

Lemma str_in_ingest_failure (e : exn) :
  str_in "Successfully" (ingest_failure e)
  = str_in "Successfully" (exn_str e).
Proof. reflexivity. Qed.

Lemma length_str_take (n : nat) (s : string) :
  String.length (str_take n s) = n `min` String.length s.
Proof.
  revert s. induction n as [|n IH]; intros [|c s]; cbn; try done.
  by rewrite IH.
Qed.

Lemma str_take_prefix (n : nat) (s : string) :
  ∃ rest, s = str_take n s +:+ rest.
Proof.
  revert s. induction n as [|n IH]; intros [|c s]; cbn [str_take];
    try by eexists.
  destruct (IH s) as [rest Hrest]. exists rest.
  change (String c s = String c (str_take n s +:+ rest)).
  by rewrite <- Hrest.
Qed.

Lemma str_take_all (n : nat) (s : string) :
  String.length s ≤ n → str_take n s = s.
Proof.
  revert s. induction n as [|n IH]; intros [|c s]; cbn; try done; try lia.
  intros H. rewrite IH; [done | lia].
Qed.

(** *** How the application evolves *)

Lemma evolves_refl (s : St) : evolves s s.
Proof.
  repeat split; try done. intros dir recs Hd. exists [].
  by rewrite app_nil_r.
Qed.

Lemma evolves_trans (s1 s2 s3 : St) :
  evolves s1 s2 → evolves s2 s3 → evolves s1 s3.
Proof.
  intros (L1 & M1 & V1 & G1) (L2 & M2 & V2 & G2).
  repeat split; try congruence; [by auto |].
  intros dir recs Hd. destruct (G1 dir recs Hd) as (m1 & H1).
  destruct (G2 dir _ H1) as (m2 & H2). exists (m1 ++ m2)%list.
  by rewrite H2, app_assoc.
Qed.

Lemma run_op_evolves (o : Op) (s : St) : evolves s (snd (run_op lib o s)).
Proof.
  destruct (run_op_effect lib o s) as (_ & L & M & _ & _ & V & G & _).
  by repeat split.
Qed.

(** A change of the session state or of the [st.error] log is no change
    of the models or the store. *)
Lemma evolves_same_rag_disk (s s' : St) :
  rag s' = rag s → disk s' = disk s → evolves s s'.
Proof.
  intros R D. unfold evolves. rewrite R, D.
  repeat split; try done. intros dir recs Hd. exists [].
  by rewrite app_nil_r.
Qed.

(** *** The "Ingest Wisdom" button *)

(** The button, run: ingestion, then the test for the marker in what it
    returned. *)
Lemma ingest_wisdom_run (p : Pg) :
  ∃ v s', ingest_documents lib "temp_data.txt" (app p) = (Ok v, s')
    ∧ ((∃ n, v = PyStr (ingest_success n)
          ∧ ingest_wisdom lib py_str_other p
            = (Ok tt, mkPage s' (rag_in_session p)
                        (shown p ++ [StSuccess v])))
       ∨ (∃ e, v = PyStr (ingest_failure e)
            ∧ ingest_wisdom lib py_str_other p
              = if str_in "Successfully" (exn_str e)
                then (Ok tt, mkPage s' (rag_in_session p)
                               (shown p ++ [StSuccess v]))
                else (Ok tt,
                      mkPage (mkState (rag s') (session_state s') (disk s')
                                (env s') (trace s')
                                (st_error s' ++ [ingest_failure e]))
                             (rag_in_session p)
                             (shown p ++ [StError v])))).
Proof.
  destruct (ingest_documents_outcome lib "temp_data.txt" (app p))
    as (v & s' & Hrun & Hcase).
  exists v, s'. split; [done |].
  unfold ingest_wisdom. unfold_ui. rewrite Hrun.
  destruct Hcase as [[[e ->] _]|(h & chunks & vecs & -> & _)].
  - right. exists e. split; [done |]. cbn [py_str_in].
    rewrite str_in_ingest_failure.
    by destruct (str_in "Successfully" (exn_str e)).
  - left. eexists. split; [done |]. cbn [py_str_in].
    by rewrite str_in_ingest_success.
Qed.

(** X14.  A successful ingestion is always announced with [st.success],
    carrying the message with the number of chunks, and nothing is shown
    with [st.error]. *)
Theorem ingest_button_shows_success (p : Pg) (v : pyval) (s' : St) :
  ingest_documents lib "temp_data.txt" (app p) = (Ok v, s') →
  ¬ ingestion_error v →
  ingest_wisdom lib py_str_other p
  = (Ok tt, mkPage s' (rag_in_session p) (shown p ++ [StSuccess v])).
Proof.
  intros Hrun Hok.
  destruct (ingest_wisdom_run p)
    as (v0 & s0 & Hrun0 & [(n & -> & H)|(e & -> & _)]);
    rewrite Hrun in Hrun0; injection Hrun0 as -> ->; [done |].
  exfalso. apply Hok. by exists e.
Qed.

(** X15.  A failed ingestion is shown with [st.error] exactly when the
    text of the exception does not contain the word "Successfully"; when
    it does, the failure is announced with [st.success]. *)
Theorem ingest_button_shows_failure (p : Pg) (e : exn) (s' : St) :
  ingest_documents lib "temp_data.txt" (app p)
  = (Ok (PyStr (ingest_failure e)), s') →
  shown (snd (ingest_wisdom lib py_str_other p))
  = (shown p
     ++ [if str_in "Successfully" (exn_str e)
         then StSuccess (PyStr (ingest_failure e))
         else StError (PyStr (ingest_failure e))])%list.
Proof.
  intros Hrun.
  destruct (ingest_wisdom_run p)
    as (v0 & s0 & Hrun0 & [(n & Hv & _)|(e0 & Hv & H)]);
    rewrite Hrun in Hrun0; injection Hrun0 as <- <-.
  - by injection Hv.
  - rewrite H. assert (He : exn_str e0 = exn_str e) by (by injection Hv).
    rewrite He. by destruct (str_in "Successfully" (exn_str e)).
Qed.

(** *** The "Generate Insight" button and the sources panel *)

(** A query always returns a pair of a text and a list of documents. *)
Lemma query_system_value (q : string) (s : St) :
  ∃ a docs s',
    query_system lib q s
    = (Ok (PyTuple [PyStr a; PyList (PyDoc <$> docs)]), s')
    ∧ framed s s'.
Proof.
  rewrite query_system_run.
  assert (Hni : not_initialized
                = PyTuple [PyStr "System is not properly initialized. Check Ollama status.";
                           PyList (PyDoc <$> [])]) by done.
  assert (Hqf : ∀ x, query_failure x
                = PyTuple [PyStr ("Error during query: " +:+ exn_str x);
                           PyList (PyDoc <$> [])]) by done.
  destruct (vectordb (rag s)) as [h|];
    [|rewrite Hni; eexists _, _, _; split; [done | apply framed_refl]].
  destruct (llm (rag s)) as [l|];
    [|rewrite Hni; eexists _, _, _; split; [done | apply framed_refl]].
  destruct (negb (Chroma_bool lib (collection h s)));
    [rewrite Hni; eexists _, _, _; split; [done | apply framed_refl] |].
  cbv zeta.
  destruct (ollama_embed lib _ q (env s)) as [[vec|x] e1].
  - destruct (ollama_generate lib l _ e1) as [[a|x] e2]; [|rewrite Hqf];
      eexists _, _, _; split; done.
  - rewrite Hqf. eexists _, _, _; split; done.
Qed.

(** The button, run on a non-empty query. *)
Lemma generate_insight_run (q : string) (p : Pg) :
  str_truth q = true →
  ∃ a docs s1,
    query_system lib q (app p)
    = (Ok (PyTuple [PyStr a; PyList (PyDoc <$> docs)]), s1)
    ∧ generate_insight lib q p
      = (Ok tt,
         mkPage
           (mkState (rag s1)
              (<["last_sources" := PyList (PyDoc <$> docs)]>
                 (<["last_answer" := PyStr a]>
                    (<["last_query" := PyStr q]> (session_state s1))))
              (disk s1) (env s1) (trace s1) (st_error s1))
           (rag_in_session p)
           (shown p ++ [StMarkdown "#### Generated Answer:";
                        StWrite (PyStr a)])).
Proof.
  intros Hq.
  destruct (query_system_value q (app p)) as (a & docs & s1 & Hrun & _).
  exists a, docs, s1. split; [done |].
  unfold generate_insight. rewrite Hq. unfold_ui. rewrite Hrun.
  unfold set_session, modify. cbn. by rewrite <- app_assoc.
Qed.

(** X16.  Clicking "Generate Insight" with a non-empty query never
    raises: it shows the text [query_system] returned, whether an answer
    or an error message, and records the query, that text and the
    sources in the session state. *)
Theorem generate_records_round (q : string) (p : Pg) :
  str_truth q = true →
  ∃ a docs s1,
    query_system lib q (app p)
    = (Ok (PyTuple [PyStr a; PyList (PyDoc <$> docs)]), s1)
    ∧ generate_insight lib q p
      = (Ok tt,
         mkPage
           (mkState (rag s1)
              (<["last_sources" := PyList (PyDoc <$> docs)]>
                 (<["last_answer" := PyStr a]>
                    (<["last_query" := PyStr q]> (session_state s1))))
              (disk s1) (env s1) (trace s1) (st_error s1))
           (rag_in_session p)
           (shown p ++ [StMarkdown "#### Generated Answer:";
                        StWrite (PyStr a)])).
Proof. apply generate_insight_run. Qed.

Lemma source_boxes_run (docs : list Document) : ∀ (i : nat) (p : Pg),
  source_boxes i (PyDoc <$> docs) p
  = (Ok tt,
     mkPage (app p) (rag_in_session p)
       (shown p
        ++ imap (λ j d, StSourceBox (i + j + 1)
                          (str_take 400 (page_content d))) docs)).
Proof.
  induction docs as [|d docs IH]; intros i p; cbn [fmap list_fmap source_boxes].
  { unfold_ui. cbn. rewrite app_nil_r. by destruct p. }
  unfold_ui. rewrite IH. cbn [app rag_in_session shown imap].
  rewrite <- app_assoc. rewrite Nat.add_0_r.
  do 3 f_equal. cbn. f_equal. apply imap_ext. intros j d' _. cbn.
  f_equal. lia.
Qed.

Lemma contextual_anchors_run (docs : list Document) (p : Pg) :
  session_state (app p) !! "last_sources" = Some (PyList (PyDoc <$> docs)) →
  contextual_anchors p
  = (Ok tt,
     mkPage (app p) (rag_in_session p)
       (shown p
        ++ match docs with
           | [] => [StInfo "Retrieve an answer to see the source context here."]
           | _ :: _ =>
               imap (λ j d, StSourceBox (j + 1)
                              (str_take 400 (page_content d))) docs
           end)).
Proof.
  intros Hs. unfold contextual_anchors. unfold_ui. rewrite Hs.
  rewrite bool_decide_eq_true_2 by eauto. cbv beta iota. rewrite Hs.
  destruct docs as [|d docs]; [done |].
  cbn [py_truth fmap list_fmap].
  exact (source_boxes_run (d :: docs) 0 p).
Qed.

(** X17.  The sources panel shows one box per stored source, in rank
    order and numbered from 1, each quoting the beginning of its passage,
    at most 400 units of it, and the whole passage when it is that short;
    when the stored list is empty (as after a failed query) it shows the
    hint instead. *)
Theorem anchors_show_sources (docs : list Document) (p : Pg) :
  session_state (app p) !! "last_sources" = Some (PyList (PyDoc <$> docs)) →
  contextual_anchors p
  = (Ok tt,
     mkPage (app p) (rag_in_session p)
       (shown p
        ++ match docs with
           | [] => [StInfo "Retrieve an answer to see the source context here."]
           | _ :: _ =>
               imap (λ j d, StSourceBox (j + 1)
                              (str_take 400 (page_content d))) docs
           end))
  ∧ ∀ d, String.length (str_take 400 (page_content d)) ≤ 400
         ∧ (∃ rest, page_content d = str_take 400 (page_content d) +:+ rest)
         ∧ (String.length (page_content d) ≤ 400 →
            str_take 400 (page_content d) = page_content d).
Proof.
  intros Hs. split; [by apply contextual_anchors_run |].
  intros d. split; [rewrite length_str_take; lia |].
  split; [apply str_take_prefix | apply str_take_all].
Qed.

(** *** The feedback panel *)

Lemma self_learn_effect q a (s : St) :
  ∃ v s', self_learn lib q a s = (Ok v, s')
    ∧ (v = learned ∨ ∃ e, v = learn_failure e)
    ∧ session_state s' = session_state s ∧ st_error s' = st_error s.
Proof.
  destruct (self_learn_outcome lib q a s)
    as (v & s' & H & [(e & Hv & F)|(h & vec & _ & Hv & _ & S & E & _)]);
    exists v, s'; (split; [done |]).
  - destruct F as (_ & S & _ & E). split; [right; by exists e | done].
  - split; [by left | done].
Qed.

(** The panel, run with the button clicked. *)
Lemma feedback_panel_run (vq va : pyval) (p : Pg) :
  session_state (app p) !! "last_query" = Some vq →
  session_state (app p) !! "last_answer" = Some va →
  ∃ v s',
    self_learn lib (py_str py_str_other vq) (py_str py_str_other va) (app p)
    = (Ok v, s')
    ∧ (v = learned ∨ ∃ e, v = learn_failure e)
    ∧ session_state s' = session_state (app p)
    ∧ st_error s' = st_error (app p)
    ∧ feedback_panel lib py_str_other true p
      = (Ok tt,
         mkPage s' (rag_in_session p)
           (shown p ++ [StMarkdown "---";
                        StMarkdown "#### Feedback & Learning";
                        StWrite (PyStr "Is this insight accurate?");
                        StSuccess v])).
Proof.
  intros Hq Ha.
  destruct (self_learn_effect (py_str py_str_other vq)
              (py_str py_str_other va) (app p))
    as (v & s' & Hrun & Hv & S & E).
  exists v, s'. do 4 (split; [done |]).
  unfold feedback_panel. unfold_ui. rewrite Ha.
  rewrite bool_decide_eq_true_2 by eauto. unfold_ui.
  rewrite Hq. unfold_ui. rewrite Ha. unfold_ui. rewrite Hrun.
  cbn. by rewrite <- !app_assoc.
Qed.

(** X18.  "Confirm & Learn" never raises when the session holds a query
    and an answer: it calls [self_learn] on them, and whatever comes back,
    the confirmation or the failure text, is announced with [st.success];
    nothing is shown with [st.error]. *)
Theorem confirm_announces_any_outcome (vq va : pyval) (p : Pg) :
  session_state (app p) !! "last_query" = Some vq →
  session_state (app p) !! "last_answer" = Some va →
  ∃ v s',
    self_learn lib (py_str py_str_other vq) (py_str py_str_other va) (app p)
    = (Ok v, s')
    ∧ (v = learned ∨ ∃ e, v = learn_failure e)
    ∧ st_error s' = st_error (app p)
    ∧ feedback_panel lib py_str_other true p
      = (Ok tt,
         mkPage s' (rag_in_session p)
           (shown p ++ [StMarkdown "---";
                        StMarkdown "#### Feedback & Learning";
                        StWrite (PyStr "Is this insight accurate?");
                        StSuccess v])).
Proof.
  intros Hq Ha.
  destruct (feedback_panel_run vq va p Hq Ha)
    as (v & s' & Hrun & Hv & _ & E & H).
  by exists v, s'.
Qed.

(** X19.  What "Confirm & Learn" stores after a round of "Generate
    Insight" is the query typed in and the text that was displayed for
    it: [self_learn] is called on the pair, also when the text is the
    message of a failed query. *)
Theorem confirm_learns_displayed_text (q : string) (p : Pg) :
  str_truth q = true →
  ∃ a docs s1 v s2,
    query_system lib q (app p)
    = (Ok (PyTuple [PyStr a; PyList (PyDoc <$> docs)]), s1)
    ∧ self_learn lib q a (app (snd (generate_insight lib q p))) = (Ok v, s2)
    ∧ feedback_panel lib py_str_other true (snd (generate_insight lib q p))
      = (Ok tt,
         mkPage s2 (rag_in_session p)
           (shown p ++ [StMarkdown "#### Generated Answer:";
                        StWrite (PyStr a);
                        StMarkdown "---";
                        StMarkdown "#### Feedback & Learning";
                        StWrite (PyStr "Is this insight accurate?");
                        StSuccess v])).
Proof.
  intros Hq.
  destruct (generate_insight_run q p Hq) as (a & docs & s1 & Hrun & Hgen).
  rewrite Hgen. cbn [snd].
  match goal with |- context [feedback_panel _ _ _ ?p1] =>
    destruct (feedback_panel_run (PyStr q) (PyStr a) p1)
      as (v & s2 & Hl & _ & _ & _ & Hf)
  end.
  { cbn [app session_state]. rewrite lookup_insert_ne by done.
    rewrite lookup_insert_ne by done. by rewrite lookup_insert_eq. }
  { cbn [app session_state]. rewrite lookup_insert_ne by done.
    by rewrite lookup_insert_eq. }
  exists a, docs, s1, v, s2. split; [done |]. split; [exact Hl |].
  rewrite Hf. cbn [rag_in_session shown]. by rewrite <- app_assoc.
Qed.

(** *** A whole run of the script *)

(** The script up to the construction of the [RAGSystem]: the page is
    new, with the style, the title and the subtitle. *)
Lemma main_unfold (i : Inputs) (p : Pg) :
  main lib write_file py_str_other i p
  = ui_bind (ensure_rag lib)
      (λ _, ui_bind (sidebar lib write_file py_str_other i)
              (λ _, columns lib py_str_other i))
      (mkPage (app p) (rag_in_session p)
         [StStyle; StTitle "Pro-RAG System";
          StMarkdown "### Next-Gen Retrieval Augmented Generation with Qwen3"]).
Proof. reflexivity. Qed.

Section Sound.
Context (allowed : exn → Prop).











End Sound.



(** *** The [RAGSystem] of a session *)

Lemma keeps_bind {A B} (m : Pg → outcome A * Pg) (k : A → Pg → outcome B * Pg) :
  keeps m → (∀ a, keeps (k a)) → keeps (ui_bind m k).
Proof.
  intros Hm Hk p Hp. unfold ui_bind.
  destruct (Hm p Hp) as [Hf He]. destruct (m p) as [[a|x] p']; cbn in *.
  - destruct (Hk a p' Hf) as [Hf' He']. split; [done |].
    by eapply evolves_trans.
  - done.
Qed.

Lemma keeps_ret {A} (a : A) : keeps (ui_ret (Env:=Env) (Vector:=Vector) a).
Proof. intros p Hp. split; [done | apply evolves_refl]. Qed.

Lemma keeps_raise {A} (x : exn) :
  keeps (ui_raise (Env:=Env) (Vector:=Vector) (A:=A) x).
Proof. intros p Hp. split; [done | apply evolves_refl]. Qed.

Lemma keeps_show (w : Widget) : keeps (show (Env:=Env) (Vector:=Vector) w).
Proof. intros p Hp. split; [done | apply evolves_refl]. Qed.

Lemma keeps_lift {A} (m : St → outcome A * St) :
  (∀ s, evolves s (snd (m s))) → keeps (lift m).
Proof.
  intros Hm p Hp. unfold lift. specialize (Hm (app p)).
  by destruct (m (app p)) as [r s'].
Qed.

Lemma keeps_session_get (key : string) :
  keeps (session_get (Env:=Env) (Vector:=Vector) key).
Proof.
  intros p Hp. unfold session_get.
  destruct (session_state (app p) !! key);
    (split; [done | apply evolves_refl]).
Qed.

Lemma keeps_session_has (key : string) :
  keeps (session_has (Env:=Env) (Vector:=Vector) key).
Proof. intros p Hp. split; [done | apply evolves_refl]. Qed.

Lemma keeps_set_session (key : string) (v : pyval) :
  keeps (lift (Env:=Env) (Vector:=Vector) (set_session key v)).
Proof. apply keeps_lift. intros s. by apply evolves_same_rag_disk. Qed.

Lemma keeps_ui_error (v : pyval) (text : string) :
  keeps (ui_error (Env:=Env) (Vector:=Vector) v text).
Proof.
  apply keeps_bind; [|intros _; apply keeps_show].
  apply keeps_lift. intros s. by apply evolves_same_rag_disk.
Qed.

Lemma keeps_ingest_wisdom : keeps (ingest_wisdom lib py_str_other).
Proof.
  apply keeps_bind.
  - apply keeps_lift. intros s. apply (run_op_evolves (OpIngest _)).
  - intros msg. destruct (py_str_in "Successfully" msg) as [[|]|x];
      [apply keeps_show | apply keeps_ui_error | apply keeps_raise].
Qed.

Lemma keeps_sidebar (i : Inputs) :
  keeps (sidebar lib write_file py_str_other i).
Proof.
  unfold sidebar.
  apply keeps_bind; [apply keeps_show | intros _].
  apply keeps_bind; [apply keeps_show | intros _].
  destruct (uploaded_file i) as [data|]; [|apply keeps_ret].
  apply keeps_bind.
  - apply keeps_lift. intros s.
    destruct (call_framed (write_file "temp_data.txt" data) s)
      as (r & s' & -> & (R & _ & D & _) & _).
    by apply evolves_same_rag_disk.
  - intros _. destruct (ingest_clicked i);
      [apply keeps_ingest_wisdom | apply keeps_ret].
Qed.

Lemma keeps_generate_insight (q : string) : keeps (generate_insight lib q).
Proof.
  unfold generate_insight. destruct (str_truth q); [|apply keeps_ret].
  apply keeps_bind.
  - apply keeps_lift. intros s. apply (run_op_evolves (OpQuery q)).
  - intros [| | | | |[|answer [|sources [|? ?]]]]; try apply keeps_raise.
    apply keeps_bind; [apply keeps_show | intros _].
    apply keeps_bind; [apply keeps_show | intros _].
    apply keeps_bind; [apply keeps_set_session | intros _].
    apply keeps_bind; [apply keeps_set_session | intros _].
    apply keeps_set_session.
Qed.

Lemma keeps_source_boxes (l : list pyval) : ∀ i : nat,
  keeps (source_boxes (Env:=Env) (Vector:=Vector) i l).
Proof.
  induction l as [|v l IH]; intros i; cbn [source_boxes];
    [apply keeps_ret |].
  destruct v; try apply keeps_raise.
  apply keeps_bind; [apply keeps_show | intros _; apply IH].
Qed.

Lemma keeps_contextual_anchors :
  keeps (contextual_anchors (Env:=Env) (Vector:=Vector)).
Proof.
  unfold contextual_anchors.
  apply keeps_bind; [apply keeps_session_has | intros has].
  cbv zeta. destruct has; [|apply keeps_show].
  apply keeps_bind; [apply keeps_session_get | intros v].
  destruct (py_truth v); [|apply keeps_show].
  destruct v; try apply keeps_raise; apply keeps_source_boxes.
Qed.

Lemma keeps_feedback_panel (confirm : bool) :
  keeps (feedback_panel lib py_str_other confirm).
Proof.
  unfold feedback_panel.
  apply keeps_bind; [apply keeps_show | intros _].
  apply keeps_bind; [apply keeps_session_has | intros has].
  destruct has; [|apply keeps_ret].
  apply keeps_bind; [apply keeps_show | intros _].
  apply keeps_bind; [apply keeps_show | intros _].
  destruct confirm; [|apply keeps_ret].
  apply keeps_bind; [apply keeps_session_get | intros q].
  apply keeps_bind; [apply keeps_session_get | intros a].
  apply keeps_bind; [|intros msg; apply keeps_show].
  apply keeps_lift. intros s. apply (run_op_evolves (OpLearn _ _)).
Qed.

Lemma keeps_columns (i : Inputs) : keeps (columns lib py_str_other i).
Proof.
  unfold columns.
  apply keeps_bind; [apply keeps_show | intros _].
  apply keeps_bind;
    [destruct (generate_clicked i);
       [apply keeps_generate_insight | apply keeps_ret] | intros _].
  apply keeps_bind; [apply keeps_show | intros _].
  apply keeps_bind; [apply keeps_contextual_anchors | intros _].
  apply keeps_feedback_panel.
Qed.

Lemma keeps_after_init (i : Inputs) :
  keeps (ui_bind (sidebar lib write_file py_str_other i)
           (λ _, columns lib py_str_other i)).
Proof.
  apply keeps_bind; [apply keeps_sidebar | intros _; apply keeps_columns].
Qed.

Lemma keeps_main (i : Inputs) : keeps (main lib write_file py_str_other i).
Proof.
  intros p Hp. rewrite main_unfold.
  assert (He : keeps (ensure_rag lib)).
  { intros p' Hp'. unfold ensure_rag. rewrite Hp'.
    split; [done | apply evolves_refl]. }
  match goal with |- context [ui_bind ?m ?k ?p0] =>
    exact (keeps_bind m k He (λ _, keeps_after_init i) p0 Hp)
  end.
Qed.

Lemma sessions_keep (runs : list Inputs) : ∀ p : Pg,
  rag_in_session p = true →
  rag_in_session (sessions lib write_file py_str_other runs p) = true
  ∧ evolves (app p) (app (sessions lib write_file py_str_other runs p)).
Proof.
  induction runs as [|i runs IH]; intros p Hp; cbn [sessions].
  { split; [done | apply evolves_refl]. }
  destruct (keeps_main i p Hp) as [Hf He].
  destruct (IH _ Hf) as [Hf' He']. split; [done |].
  by eapply evolves_trans.
Qed.

(** The first run of a session: the constructor runs, and the rest of
    the script goes on from what it has built. *)
Lemma main_first_run (i : Inputs) (p : Pg) :
  rag_in_session p = false →
  ∃ s1, RAGSystem_init lib (app p) = (Ok tt, s1)
    ∧ rag_in_session (snd (main lib write_file py_str_other i p)) = true
    ∧ evolves s1 (app (snd (main lib write_file py_str_other i p))).
Proof.
  intros Hp.
  assert (Hinit : ∃ s1, RAGSystem_init lib (app p) = (Ok tt, s1)).
  { rewrite RAGSystem_init_run. cbv zeta.
    destruct (ollama_client lib "nomic-embed-text" (env (app p)))
      as [[[]|x] e1]; [|by eexists].
    destruct (ollama_client lib "qwen2.5-coder:3b" e1) as [[[]|x] e2];
      by eexists. }
  destruct Hinit as [s1 Hinit]. exists s1. split; [done |].
  rewrite main_unfold.
  match goal with |- context [ui_bind (ensure_rag lib) ?k ?p0] =>
    assert (Hrun : ui_bind (ensure_rag lib) k p0
                   = k tt (mkPage s1 true (shown p0)))
      by (unfold ui_bind at 1, ensure_rag;
          cbn [rag_in_session app shown]; by rewrite Hp, Hinit)
  end.
  rewrite Hrun.
  match goal with |- context [ui_bind ?m ?k ?p1] =>
    exact (keeps_after_init i p1 eq_refl)
  end.
Qed.

(** X21.  The [RAGSystem] is built once per session: when the session
    holds one, no number of later runs of the script, whatever is typed,
    uploaded or clicked in them, builds another.  The object keeps its
    language model and its embedding model, keeps the store it holds,
    and every collection on disk still begins with the records it had. *)
Theorem rag_built_once_per_session (runs : list Inputs) (p : Pg) :
  rag_in_session p = true →
  let p' := sessions lib write_file py_str_other runs p in
  rag_in_session p' = true
  ∧ llm (rag (app p')) = llm (rag (app p))
  ∧ embedding_model (rag (app p')) = embedding_model (rag (app p))
  ∧ (∀ h, vectordb (rag (app p)) = Some h → vectordb (rag (app p')) = Some h)
  ∧ (∀ dir recs, disk (app p) !! dir = Some recs →
       ∃ more, disk (app p') !! dir = Some (recs ++ more)%list).
Proof.
  intros Hp p'. destruct (sessions_keep runs p Hp) as [Hf He].
  split; [done | exact He].
Qed.

(** X22.  A session whose first run could not build the language model
    never recovers: the constructor is not run again, so after that run
    and any number of further runs every query is still answered with
    the message that the system is not initialized, and no provider is
    called for it. *)
Theorem failed_start_is_never_retried (i : Inputs) (runs : list Inputs)
    (p : Pg) (q : string) :
  rag_in_session p = false →
  llm (rag (snd (RAGSystem_init lib (app p)))) = None →
  let p' := sessions lib write_file py_str_other (i :: runs) p in
  rag_in_session p' = true
  ∧ query_system lib q (app p') = (Ok not_initialized, app p').
Proof.
  intros Hp Hl p'. subst p'. cbn [sessions].
  destruct (main_first_run i p Hp) as (s1 & Hinit & Hf & He).
  rewrite Hinit in Hl. cbn [snd] in Hl.
  destruct (sessions_keep runs _ Hf) as [Hf' He'].
  split; [done |].
  destruct (evolves_trans _ _ _ He He') as (L & _).
  rewrite query_system_run. rewrite L, Hl.
  by destruct (vectordb (rag _)).
Qed.

(** *** A run without a click *)






End FrontEndFacts.

(** * The properties on concrete runs *)

Import ChunkingEngine Demo.


(** C10 at work: feedback right after construction. *)
Lemma learn_without_store_witness :
  vectordb (rag (started 1)) = None
  ∧ self_learn (demo true) "What is alpha?" "A letter." (started 1)
    = (Ok (learn_failure (no_attribute "NoneType" "add_documents")),
       started 1).
Proof.
  assert (H : vectordb (rag (started 1)) = None)
    by (vm_compute; reflexivity).
  split; [exact H |].
  exact (learn_without_store (demo true) "What is alpha?" "A letter."
           (started 1) H).
Defined.

(** C2 as stated fails: a verified pair of more than 800 units is
    written as one record, where the splitter of the ingestion path
    would have made three chunks of the same text. *)
Lemma learn_long_pair_single_record :
  let s := ready 1 in
  let r := self_learn (demo true) "q" long_answer s in
  800 < String.length (feedback_text "q" long_answer)
  ∧ fst r = Ok learned
  ∧ length (default [] (disk (snd r) !! PERSIST_DIRECTORY))
    = S (length (default [] (disk s !! PERSIST_DIRECTORY)))
  ∧ length (split 800 100 (feedback_text "q" long_answer)) = 3.
Proof.
  cbv zeta. split; [apply Nat.ltb_lt; vm_compute; reflexivity |].
  repeat split; vm_compute; reflexivity.
Qed.

(** C2 (amended) at work. *)
Lemma learn_writes_one_record_witness :
  vectordb (rag (ready 1))
  = Some (mkChroma PERSIST_DIRECTORY (mkOllamaEmbeddings "nomic-embed-text"))
  ∧ ∃ v s', self_learn (demo true) "q" long_answer (ready 1) = (Ok v, s')
    ∧ ((∃ e, v = learn_failure e ∧ disk s' = disk (ready 1))
       ∨ (∃ vec, v = learned
            ∧ disk s' !! PERSIST_DIRECTORY
              = Some (collection
                        (mkChroma PERSIST_DIRECTORY
                           (mkOllamaEmbeddings "nomic-embed-text"))
                        (ready 1)
                      ++ [mkStoreRecord
                            (length
                               (collection
                                  (mkChroma PERSIST_DIRECTORY
                                     (mkOllamaEmbeddings "nomic-embed-text"))
                                  (ready 1)))
                            vec
                            ("Question: " +:+ "q" +:+ nl
                             +:+ "Verified Answer: " +:+ long_answer)
                            {[ "source" := "user_feedback" ]}])%list)).
Proof.
  assert (H : vectordb (rag (ready 1))
              = Some (mkChroma PERSIST_DIRECTORY
                        (mkOllamaEmbeddings "nomic-embed-text")))
    by (vm_compute; reflexivity).
  split; [exact H |].
  exact (learn_writes_one_record (demo true) "q" long_answer (ready 1) _ H).
Defined.

(** C3 as stated fails: the successful call returns a [str], not the
    integer count. *)
Lemma ingest_returns_text_not_count :
  let r := ingest_documents (demo true) "temp_data.txt" (started 1) in
  fst r = Ok (PyStr "Successfully processed 1 chunks using Ollama embeddings.")
  ∧ length (default [] (disk (snd r) !! PERSIST_DIRECTORY)) = 1
  ∧ ∀ n, fst r ≠ Ok (PyInt n).
Proof.
  vm_compute. repeat split. intros n H. discriminate H.
Qed.


Lemma success_is_not_an_error (n : nat) :
  ¬ ingestion_error (PyStr (ingest_success n)).
Proof.
  intros [e He].
  assert (Heq : ingest_success n = ingest_failure e) by congruence.
  by apply ingest_success_not_failure in Heq.
Qed.

(** C3 (amended) at work: the first ingestion of the text file. *)
Lemma ingest_success_reports_count_witness :
  ingest_documents (demo true) "temp_data.txt" (started 1)
  = (Ok (PyStr (ingest_success 1)), ready 1)
  ∧ ¬ ingestion_error (PyStr (ingest_success 1))
  ∧ ∃ h new,
      ingest_target (rag (started 1)) = Some h
      ∧ disk (ready 1) !! persist_directory h
        = Some (collection h (started 1) ++ new)%list
      ∧ PyStr (ingest_success 1) = PyStr (ingest_success (length new)).
Proof.
  assert (H1 : ingest_documents (demo true) "temp_data.txt" (started 1)
               = (Ok (PyStr (ingest_success 1)), ready 1))
    by (vm_compute; reflexivity).
  pose proof (success_is_not_an_error 1) as H2.
  split; [exact H1 |]. split; [exact H2 |].
  exact (ingest_success_reports_count (demo true) "temp_data.txt"
           (started 1) (ready 1) _ H1 H2).
Defined.



(** C6 as stated fails: [query_system] itself does not reject the empty
    string; on a system that is ready it sends it to the embedding
    provider and then calls the language model. *)
Lemma empty_query_reaches_providers :
  let r := query_system (demo true) "" (ready 1) in
  trace (snd r)
  = (trace (ready 1)
     ++ [EvEmbed "nomic-embed-text" "";
         EvGenerate "qwen2.5-coder:3b" "Alpha beta. Gamma delta."])%list
  ∧ fst r
    = Ok (PyTuple
            [PyStr "Answer to: Alpha beta. Gamma delta.";
             PyList [PyDoc (mkDocument "Alpha beta. Gamma delta."
                              {[ "source" := "temp_data.txt" ]})]]).
Proof. split; vm_compute; reflexivity. Qed.

(** C7 at work: construction with nothing on disk, then the first
    ingestion. *)
Lemma first_ingest_creates_store_witness :
  disk (blank 1) !! PERSIST_DIRECTORY = None
  ∧ vectordb (rag (started 1)) = None
  ∧ disk (started 1) !! PERSIST_DIRECTORY = None
  ∧ ingest_documents (demo true) "temp_data.txt" (started 1)
    = (Ok (PyStr (ingest_success 1)), ready 1)
  ∧ ¬ ingestion_error (PyStr (ingest_success 1))
  ∧ (∃ s1, RAGSystem_init (demo true) (blank 1) = (Ok tt, s1)
       ∧ vectordb (rag s1) = None ∧ disk s1 = disk (blank 1)
       ∧ (st_error s1 = st_error (blank 1)
          ∨ ∃ model e x e',
              ollama_client (demo true) model e = (Raise x, e')))
  ∧ (∃ e recs,
       vectordb (rag (ready 1)) = Some (mkChroma PERSIST_DIRECTORY e)
       ∧ disk (ready 1) !! PERSIST_DIRECTORY = Some recs
       ∧ PyStr (ingest_success 1) = PyStr (ingest_success (length recs))
       ∧ ∀ dir, dir ≠ PERSIST_DIRECTORY
                → disk (ready 1) !! dir = disk (started 1) !! dir).
Proof.
  assert (H0 : disk (blank 1) !! PERSIST_DIRECTORY = None)
    by (vm_compute; reflexivity).
  assert (H1 : vectordb (rag (started 1)) = None)
    by (vm_compute; reflexivity).
  assert (H2 : disk (started 1) !! PERSIST_DIRECTORY = None)
    by (vm_compute; reflexivity).
  assert (H3 : ingest_documents (demo true) "temp_data.txt" (started 1)
               = (Ok (PyStr (ingest_success 1)), ready 1))
    by (vm_compute; reflexivity).
  pose proof (success_is_not_an_error 1) as H4.
  split; [exact H0 |]. split; [exact H1 |]. split; [exact H2 |].
  split; [exact H3 |]. split; [exact H4 |].
  exact (first_ingest_creates_store (demo true) "temp_data.txt" (blank 1)
           (started 1) (ready 1) _ H0 H1 H2 H3 H4).
Defined.

(** C8 at work: ingestion while the embedding provider refuses
    connections. *)
Lemma failed_ingest_keeps_records_witness :
  let s' := after (ingest_documents (demo false) "temp_data.txt") (ready 1) in
  ingest_documents (demo false) "temp_data.txt" (ready 1)
  = (Ok (PyStr (ingest_failure refused)), s')
  ∧ ingestion_error (PyStr (ingest_failure refused))
  ∧ disk s' = disk (ready 1) ∧ rag s' = rag (ready 1).
Proof.
  intros s'.
  assert (H1 : ingest_documents (demo false) "temp_data.txt" (ready 1)
               = (Ok (PyStr (ingest_failure refused)), s'))
    by (vm_compute; reflexivity).
  assert (H2 : ingestion_error (PyStr (ingest_failure refused)))
    by (exists refused; reflexivity).
  split; [exact H1 |]. split; [exact H2 |].
  exact (failed_ingest_keeps_records (demo false) "temp_data.txt" (ready 1)
           s' _ H1 H2).
Defined.

Lemma demo_embedding_deterministic : deterministic_embedding (demo true).
Proof. intros model text e1 e2. reflexivity. Qed.

(** C9 as stated fails: the embedding provider is deterministic and the
    store is unchanged, yet the second of two identical queries returns
    no sources, because the language model refused the second call. *)
Lemma repeated_query_sources_differ :
  deterministic_embedding (demo true)
  ∧ let r1 := query_system (demo true) "x" (ready 1) in
    let r2 := query_system (demo true) "x" (snd r1) in
    rag (snd r1) = rag (ready 1)
    ∧ disk (snd r1) = disk (ready 1)
    ∧ sources_of (value_of r1)
      = Some [PyDoc (mkDocument "Alpha beta. Gamma delta."
                       {[ "source" := "temp_data.txt" ]})]
    ∧ sources_of (value_of r2) = Some []
    ∧ sources_of (value_of r1) ≠ sources_of (value_of r2).
Proof.
  split; [exact demo_embedding_deterministic |].
  cbv zeta. split; [vm_compute; reflexivity |].
  split; [vm_compute; reflexivity |].
  split; [vm_compute; reflexivity |].
  split; [vm_compute; reflexivity |].
  vm_compute. discriminate.
Qed.

(** C9 (amended) at work: two identical queries that both succeed. *)
Lemma repeated_query_same_sources_witness :
  let r1 := query_system (demo true) "x" (ready 2) in
  let r2 := query_system (demo true) "x" (snd r1) in
  deterministic_embedding (demo true)
  ∧ rag (snd r1) = rag (ready 2)
  ∧ disk (snd r1) = disk (ready 2)
  ∧ query_system (demo true) "x" (ready 2) = (Ok (value_of r1), snd r1)
  ∧ query_system (demo true) "x" (snd r1) = (Ok (value_of r2), snd r2)
  ∧ (sources_of (value_of r1) = sources_of (value_of r2)
     ∨ (∃ e, value_of r1 = query_failure e)
     ∨ (∃ e, value_of r2 = query_failure e)).
Proof.
  intros r1 r2.
  assert (H1 : rag (snd r1) = rag (ready 2)) by (vm_compute; reflexivity).
  assert (H2 : disk (snd r1) = disk (ready 2)) by (vm_compute; reflexivity).
  assert (H3 : query_system (demo true) "x" (ready 2)
               = (Ok (value_of r1), snd r1)) by (vm_compute; reflexivity).
  assert (H4 : query_system (demo true) "x" (snd r1)
               = (Ok (value_of r2), snd r2)) by (vm_compute; reflexivity).
  split; [exact demo_embedding_deterministic |].
  split; [exact H1 |]. split; [exact H2 |].
  split; [exact H3 |]. split; [exact H4 |].
  exact (repeated_query_same_sources (demo true) "x" (ready 2) (snd r1)
           (snd r1) (snd r2) _ _ demo_embedding_deterministic H1 H2 H3 H4).
Defined.

(** ** The life of a [RAGSystem], on concrete runs *)

(** X2 at work: a new process over the store an earlier one has filled. *)
Lemma init_reopens_store_witness :
  let s := Outage.restart (ready 1) in
  let s' := snd (RAGSystem_init (demo true) s) in
  let h := mkChroma PERSIST_DIRECTORY (mkOllamaEmbeddings "nomic-embed-text") in
  vectordb (rag s') = Some h
  ∧ collection h s' = default [] (disk (ready 1) !! PERSIST_DIRECTORY)
  ∧ llm (rag s') = Some (mkChatOllama "qwen2.5-coder:3b" "0.3" "5m")
  ∧ st_error s' = st_error s.
Proof.
  assert (H1 : disk (Outage.restart (ready 1)) !! PERSIST_DIRECTORY
               = Some (default [] (disk (ready 1) !! PERSIST_DIRECTORY)))
    by (vm_compute; reflexivity).
  assert (H2 : ollama_client (demo true) "nomic-embed-text"
                 (env (Outage.restart (ready 1))) = (Ok tt, 1))
    by (vm_compute; reflexivity).
  assert (H3 : ollama_client (demo true) "qwen2.5-coder:3b" 1 = (Ok tt, 1))
    by (vm_compute; reflexivity).
  exact (init_reopens_store (demo true) (Outage.restart (ready 1)) _ 1 1
           H1 H2 H3).
Defined.

(** X3 at work: the language model cannot be reached, over a store that
    exists. *)
Lemma init_failure_degrades_witness :
  let lib := Outage.offline ["qwen2.5-coder:3b"] in
  let s := Outage.restart (ready 1) in
  let s' := snd (RAGSystem_init lib s) in
  vectordb (rag s') = None
  ∧ llm (rag s') = None
  ∧ st_error s' = (st_error s ++ [connect_failure refused])%list.
Proof.
  assert (H : ollama_client (Outage.offline ["qwen2.5-coder:3b"])
                "nomic-embed-text" (env (Outage.restart (ready 1)))
              = (Raise refused, 1)
              ∨ (ollama_client (Outage.offline ["qwen2.5-coder:3b"])
                   "nomic-embed-text" (env (Outage.restart (ready 1)))
                 = (Ok tt, 1)
                 ∧ ollama_client (Outage.offline ["qwen2.5-coder:3b"])
                     "qwen2.5-coder:3b" 1 = (Raise refused, 1)))
    by (right; split; vm_compute; reflexivity).
  exact (init_failure_degrades (Outage.offline ["qwen2.5-coder:3b"])
           (Outage.restart (ready 1)) refused 1 1 H).
Defined.

(** X5 at work: ingestion and feedback do not bring the language model
    back. *)
Lemma no_llm_never_answers_witness :
  let lib := Outage.offline ["qwen2.5-coder:3b"] in
  let s := run_ops lib [OpIngest "temp_data.txt"; OpLearn "q" "a"]
             (Outage.degraded 1) in
  llm (rag (Outage.degraded 1)) = None
  ∧ query_system lib "What is alpha?" s = (Ok not_initialized, s).
Proof.
  assert (H : llm (rag (Outage.degraded 1)) = None)
    by (vm_compute; reflexivity).
  split; [exact H |].
  exact (no_llm_never_answers (Outage.offline ["qwen2.5-coder:3b"])
           [OpIngest "temp_data.txt"; OpLearn "q" "a"] "What is alpha?"
           (Outage.degraded 1) H).
Defined.

(** X7 at work. *)
Lemma store_handle_stable_witness :
  let h := mkChroma PERSIST_DIRECTORY (mkOllamaEmbeddings "nomic-embed-text") in
  let ops := [OpQuery "q"; OpLearn "q" "a"; OpIngest "temp_data.txt"] in
  vectordb (rag (ready 1)) = Some h
  ∧ vectordb (rag (run_ops (demo true) ops (ready 1))) = Some h
  ∧ ∀ dir, dir ≠ persist_directory h →
      disk (run_ops (demo true) ops (ready 1)) !! dir
      = disk (ready 1) !! dir.
Proof.
  assert (H : vectordb (rag (ready 1))
              = Some (mkChroma PERSIST_DIRECTORY
                        (mkOllamaEmbeddings "nomic-embed-text")))
    by (vm_compute; reflexivity).
  split; [exact H |].
  exact (store_handle_stable (demo true)
           [OpQuery "q"; OpLearn "q" "a"; OpIngest "temp_data.txt"]
           (ready 1) _ H).
Defined.

(** X8 at work. *)
Lemma store_append_only_witness :
  let ops := [OpQuery "q"; OpLearn "q" "a"; OpIngest "temp_data.txt"] in
  let recs := default [] (disk (ready 1) !! PERSIST_DIRECTORY) in
  disk (ready 1) !! PERSIST_DIRECTORY = Some recs
  ∧ ∃ more, disk (run_ops (demo true) ops (ready 1)) !! PERSIST_DIRECTORY
            = Some (recs ++ more)%list.
Proof.
  assert (H : disk (ready 1) !! PERSIST_DIRECTORY
              = Some (default [] (disk (ready 1) !! PERSIST_DIRECTORY)))
    by (vm_compute; reflexivity).
  split; [exact H |].
  exact (store_append_only (demo true)
           [OpQuery "q"; OpLearn "q" "a"; OpIngest "temp_data.txt"]
           (ready 1) PERSIST_DIRECTORY _ H).
Defined.

(** X11 at work: a file that is not there. *)
Lemma ingest_fails_before_any_provider_witness :
  let x := Exn "RuntimeError" "Error loading missing.txt" in
  ingest_documents (demo true) "missing.txt" (ready 1)
  = (Ok (PyStr (ingest_failure x)),
     mkState (rag (ready 1)) (session_state (ready 1)) (disk (ready 1)) 1
             (trace (ready 1)) (st_error (ready 1))).
Proof.
  assert (H : text_loader_load (demo true) "missing.txt" (env (ready 1))
              = (Raise (Exn "RuntimeError" "Error loading missing.txt"), 1))
    by (vm_compute; reflexivity).
  exact (ingest_fails_before_any_provider (demo true) "missing.txt"
           (ready 1) [] _ 1 (or_introl H)).
Defined.

(** X12 at work: the embedding client could not be built. *)
Lemma ingest_without_embedding_model_witness :
  let lib := Outage.offline ["nomic-embed-text"] in
  let s := Outage.no_embeddings 1 in
  ∃ v s', ingest_documents lib "temp_data.txt" s = (Ok v, s')
    ∧ ingestion_error v ∧ framed s s' ∧ trace s' = trace s
    ∧ v = PyStr (ingest_failure (no_attribute "RAGSystem" "embedding_model")).
Proof.
  assert (H1 : vectordb (rag (Outage.no_embeddings 1)) = None)
    by (vm_compute; reflexivity).
  assert (H2 : embedding_model (rag (Outage.no_embeddings 1)) = None)
    by (vm_compute; reflexivity).
  destruct (ingest_without_embedding_model
              (Outage.offline ["nomic-embed-text"])
              "temp_data.txt" (Outage.no_embeddings 1) H1 H2)
    as (v & s' & Hrun & He & Hf & Ht & Hv).
  exists v, s'. do 4 (split; [assumption |]).
  eapply Hv; vm_compute; reflexivity.
Defined.

(** X13 at work: the same pair confirmed twice. *)
Lemma learn_twice_two_records_witness :
  let h := mkChroma PERSIST_DIRECTORY (mkOllamaEmbeddings "nomic-embed-text") in
  let s1 := after (self_learn (demo true) "q" "a") (ready 1) in
  let s2 := after (self_learn (demo true) "q" "a") s1 in
  ∃ v1 v2,
    collection h s2
    = (collection h (ready 1)
       ++ [mkStoreRecord (length (collection h (ready 1))) v1
             (feedback_text "q" "a") feedback_metadata;
           mkStoreRecord (S (length (collection h (ready 1)))) v2
             (feedback_text "q" "a") feedback_metadata])%list.
Proof.
  assert (H : vectordb (rag (ready 1))
              = Some (mkChroma PERSIST_DIRECTORY
                        (mkOllamaEmbeddings "nomic-embed-text")))
    by (vm_compute; reflexivity).
  assert (H1 : self_learn (demo true) "q" "a" (ready 1)
               = (Ok learned, after (self_learn (demo true) "q" "a") (ready 1)))
    by (vm_compute; reflexivity).
  assert (H2 : self_learn (demo true) "q" "a"
                 (after (self_learn (demo true) "q" "a") (ready 1))
               = (Ok learned,
                  after (self_learn (demo true) "q" "a")
                    (after (self_learn (demo true) "q" "a") (ready 1))))
    by (vm_compute; reflexivity).
  exact (learn_twice_two_records (demo true) "q" "a" (ready 1) _ _ _ H H1 H2).
Defined.

(** ** The front end, on concrete runs *)

(** X14 at work: the first ingestion from the sidebar. *)
Lemma ingest_button_shows_success_witness :
  ingest_wisdom (demo true) Visit.repr (Visit.open_page (started 1))
  = (Ok tt, mkPage (ready 1) true [StSuccess (PyStr (ingest_success 1))]).
Proof.
  assert (H1 : ingest_documents (demo true) "temp_data.txt"
                 (app (Visit.open_page (started 1)))
               = (Ok (PyStr (ingest_success 1)), ready 1))
    by (vm_compute; reflexivity).
  exact (ingest_button_shows_success (demo true) Visit.repr
           (Visit.open_page (started 1)) _ _ H1 (success_is_not_an_error 1)).
Defined.

(** X15 at work: the embedding provider is down. *)
Lemma ingest_button_shows_failure_witness :
  shown (snd (ingest_wisdom (demo false) Visit.repr
                (Visit.open_page (started 1))))
  = ([]
     ++ [if str_in "Successfully" (exn_str refused)
         then StSuccess (PyStr (ingest_failure refused))
         else StError (PyStr (ingest_failure refused))])%list.
Proof.
  assert (H : ingest_documents (demo false) "temp_data.txt"
                (app (Visit.open_page (started 1)))
              = (Ok (PyStr (ingest_failure refused)),
                 after (ingest_documents (demo false) "temp_data.txt")
                   (started 1)))
    by (vm_compute; reflexivity).
  exact (ingest_button_shows_failure (demo false) Visit.repr
           (Visit.open_page (started 1)) refused _ H).
Defined.

(** X16 at work: a question on the ingested file. *)
Lemma generate_records_round_witness :
  let p := Visit.open_page (ready 1) in
  ∃ a docs s1,
    query_system (demo true) "What is alpha?" (app p)
    = (Ok (PyTuple [PyStr a; PyList (PyDoc <$> docs)]), s1)
    ∧ generate_insight (demo true) "What is alpha?" p
      = (Ok tt,
         mkPage
           (mkState (rag s1)
              (<["last_sources" := PyList (PyDoc <$> docs)]>
                 (<["last_answer" := PyStr a]>
                    (<["last_query" := PyStr "What is alpha?"]>
                       (session_state s1))))
              (disk s1) (env s1) (trace s1) (st_error s1))
           (rag_in_session p)
           (shown p ++ [StMarkdown "#### Generated Answer:";
                        StWrite (PyStr a)])).
Proof.
  assert (H : str_truth "What is alpha?" = true) by reflexivity.
  exact (generate_records_round (demo true) "What is alpha?"
           (Visit.open_page (ready 1)) H).
Defined.

(** X17 at work: the panel after that question. *)
Lemma anchors_show_sources_witness :
  let docs := [mkDocument "Alpha beta. Gamma delta."
                 {[ "source" := "temp_data.txt" ]}] in
  session_state (app Visit.answered) !! "last_sources"
  = Some (PyList (PyDoc <$> docs))
  ∧ contextual_anchors Visit.answered
    = (Ok tt,
       mkPage (app Visit.answered) (rag_in_session Visit.answered)
         (shown Visit.answered
          ++ [StSourceBox 1 "Alpha beta. Gamma delta."])).
Proof.
  assert (H : session_state (app Visit.answered) !! "last_sources"
              = Some (PyList (PyDoc <$> [mkDocument "Alpha beta. Gamma delta."
                                          {[ "source" := "temp_data.txt" ]}])))
    by (vm_compute; reflexivity).
  split; [exact H |].
  exact (proj1 (anchors_show_sources _ Visit.answered H)).
Defined.

(** X18 at work: the answer is confirmed. *)
Lemma confirm_announces_any_outcome_witness :
  ∃ v s',
    self_learn (demo true) "What is alpha?"
      "Answer to: Alpha beta. Gamma delta.What is alpha?"
      (app Visit.answered)
    = (Ok v, s')
    ∧ (v = learned ∨ ∃ e, v = learn_failure e)
    ∧ st_error s' = st_error (app Visit.answered)
    ∧ feedback_panel (demo true) Visit.repr true Visit.answered
      = (Ok tt,
         mkPage s' (rag_in_session Visit.answered)
           (shown Visit.answered
            ++ [StMarkdown "---";
                StMarkdown "#### Feedback & Learning";
                StWrite (PyStr "Is this insight accurate?");
                StSuccess v])).
Proof.
  assert (Hq : session_state (app Visit.answered) !! "last_query"
               = Some (PyStr "What is alpha?"))
    by (vm_compute; reflexivity).
  assert (Ha : session_state (app Visit.answered) !! "last_answer"
               = Some (PyStr "Answer to: Alpha beta. Gamma delta.What is alpha?"))
    by (vm_compute; reflexivity).
  exact (confirm_announces_any_outcome (demo true) Visit.repr _ _
           Visit.answered Hq Ha).
Defined.

(** X19 at work: the language model has no call left, the query fails,
    and its error message is what "Confirm & Learn" stores. *)
Lemma confirm_learns_displayed_text_witness :
  let p := Visit.open_page (ready 0) in
  let q := "What is alpha?" in
  ∃ a docs s1 v s2,
    query_system (demo true) q (app p)
    = (Ok (PyTuple [PyStr a; PyList (PyDoc <$> docs)]), s1)
    ∧ self_learn (demo true) q a
        (app (snd (generate_insight (demo true) q p))) = (Ok v, s2)
    ∧ feedback_panel (demo true) Visit.repr true
        (snd (generate_insight (demo true) q p))
      = (Ok tt,
         mkPage s2 (rag_in_session p)
           (shown p ++ [StMarkdown "#### Generated Answer:";
                        StWrite (PyStr a);
                        StMarkdown "---";
                        StMarkdown "#### Feedback & Learning";
                        StWrite (PyStr "Is this insight accurate?");
                        StSuccess v])).
Proof.
  assert (H : str_truth "What is alpha?" = true) by reflexivity.
  exact (confirm_learns_displayed_text (demo true) Visit.repr
           "What is alpha?" (Visit.open_page (ready 0)) H).
Defined.



(** X21 at work: a file is ingested, a question asked, the answer
    confirmed. *)
Lemma rag_built_once_per_session_witness :
  let p := Visit.open_page (started 1) in
  let p' := sessions (demo true) Visit.write_ok Visit.repr
              [Visit.upload_and_ingest "Alpha beta. Gamma delta.";
               Visit.ask "What is alpha?"; Visit.confirm] p in
  rag_in_session p' = true
  ∧ llm (rag (app p')) = llm (rag (app p))
  ∧ embedding_model (rag (app p')) = embedding_model (rag (app p))
  ∧ (∀ h, vectordb (rag (app p)) = Some h → vectordb (rag (app p')) = Some h)
  ∧ (∀ dir recs, disk (app p) !! dir = Some recs →
       ∃ more, disk (app p') !! dir = Some (recs ++ more)%list).
Proof.
  assert (H : rag_in_session (Visit.open_page (started 1)) = true)
    by reflexivity.
  exact (rag_built_once_per_session (demo true) Visit.write_ok Visit.repr
           [Visit.upload_and_ingest "Alpha beta. Gamma delta.";
            Visit.ask "What is alpha?"; Visit.confirm]
           (Visit.open_page (started 1)) H).
Defined.

(** X22 at work: the language model is unreachable when the session
    starts; a file is ingested and a question asked. *)
Lemma failed_start_is_never_retried_witness :
  let lib := Outage.offline ["qwen2.5-coder:3b"] in
  let p' := sessions lib Visit.write_ok Visit.repr
              [Visit.upload_and_ingest "Alpha beta. Gamma delta.";
               Visit.ask "What is alpha?"]
              (Visit.new_session (blank 1)) in
  rag_in_session p' = true
  ∧ query_system lib "What is alpha?" (app p') = (Ok not_initialized, app p').
Proof.
  assert (H1 : rag_in_session (Visit.new_session (blank 1)) = false)
    by reflexivity.
  assert (H2 : llm (rag (snd (RAGSystem_init
                                (Outage.offline ["qwen2.5-coder:3b"])
                                (app (Visit.new_session (blank 1))))))
               = None)
    by (vm_compute; reflexivity).
  exact (failed_start_is_never_retried (Outage.offline ["qwen2.5-coder:3b"])
           Visit.write_ok Visit.repr
           (Visit.upload_and_ingest "Alpha beta. Gamma delta.")
           [Visit.ask "What is alpha?"]
           (Visit.new_session (blank 1)) "What is alpha?" H1 H2).
Defined.

